(** * Extreme-value risk pipeline: Hill threshold selection, GPD scale fit,
      VaR / ES and cross-sectional ranks.

    A shallow embedding of [src/generate_data.py] and of the statistical
    part of [src/smoothed_Hill_estimator.py].

    - Python [float] / [np.float64] values are IEEE binary64 numbers: Rocq's
      primitive [float], with NaN and the infinities as the hardware has them.
    - Python integers (lengths, order statistics [k]) are [Z]; indexing and
      slicing follow Python for negative indices.
    - A Python exception is the [Raise] alternative of [result].
    - The routines of numpy / scipy that are transcendental or iterative
      ([np.log], [**], [gaussian_filter1d], [genpareto.logpdf], [minimize])
      are the fields of the class [NumericLib]; the program is written
      against that interface.  [Soft] is an instance that runs. *)

From Stdlib Require Import String.
From Stdlib Require Import ZArith List Bool Lia Sorted.
From Stdlib Require Import Floats.
Import ListNotations.

Set Warnings "-inexact-float".
Set Implicit Arguments.

(* ================================================================== *)
(** ** Python runtime: exceptions, indexing, slicing                   *)
(* ================================================================== *)

Module Py.

Inductive exn : Type :=
| ValueError
| IndexError
| TypeError
| LibraryError.

Inductive result (A : Type) : Type :=
| Ok (a : A)
| Raise (e : exn).

Arguments Ok {A} a.
Arguments Raise {A} e.

Definition bind {A B} (m : result A) (f : A -> result B) : result B :=
  match m with
  | Ok a => f a
  | Raise e => Raise e
  end.

(** [try: body except Exception: handler]. *)
Definition try_except {A} (body : result A) (handler : exn -> result A)
  : result A :=
  match body with
  | Ok a => Ok a
  | Raise e => handler e
  end.

(** A list comprehension whose element expression may raise. *)
Fixpoint comprehension {A B} (f : A -> result B) (xs : list A)
  : result (list B) :=
  match xs with
  | [] => Ok []
  | x :: xs' =>
      bind (f x) (fun y =>
      bind (comprehension f xs') (fun ys => Ok (y :: ys)))
  end.

(** [len(l)]. *)
Definition len {A} (l : list A) : Z := Z.of_nat (length l).

(** [l[k]]: a negative [k] counts from the end; out of range raises. *)
Definition getitem {A} (l : list A) (k : Z) : result A :=
  let i := if (k <? 0)%Z then (k + len l)%Z else k in
  if (i <? 0)%Z then Raise IndexError
  else match nth_error l (Z.to_nat i) with
       | Some x => Ok x
       | None => Raise IndexError
       end.

(** [l[:k]]: a negative [k] drops the last [-k] elements; never raises. *)
Definition prefix {A} (l : list A) (k : Z) : list A :=
  let i := if (k <? 0)%Z then (k + len l)%Z else k in
  firstn (Z.to_nat i) l.

End Py.

Export Py.

Notation "x <- m ;; k" := (Py.bind m (fun x => k))
  (at level 61, m at next level, right associativity).

(* ================================================================== *)
(** ** numpy: the array routines with a closed definition              *)
(* ================================================================== *)

Module Np.

Open Scope float_scope.

(** The float of a Python integer, rounded to nearest. *)
Definition of_int (n : Z) : float :=
  SF2Prim (binary_normalize prec emax n 0 false).

(** [np.arange(a, b)] on integers. *)
Definition arange (a b : Z) : list Z :=
  map (fun i => (a + Z.of_nat i)%Z) (seq 0 (Z.to_nat (b - a))).

(** numpy's order on floats when sorting: NaN after every number. *)
Definition sort_lt (a b : float) : bool :=
  (a <? b) || (is_nan b && negb (is_nan a)).

Fixpoint insert (x : float) (l : list float) : list float :=
  match l with
  | [] => [x]
  | y :: l' => if sort_lt x y then x :: y :: l' else y :: insert x l'
  end.

(** [np.sort(a)]: ascending. *)
Definition sort (l : list float) : list float :=
  fold_right insert [] l.

(** [a[::-1]]. *)
Definition flip (l : list float) : list float := rev l.

(** [np.sum(a)]; the empty sum is [0.0]. *)
Definition sum (l : list float) : float :=
  match l with
  | [] => 0
  | x :: r => fold_left PrimFloat.add r x
  end.

(** [np.mean(a)]: the sum over the count; [0.0 / 0] = NaN when empty. *)
Definition mean (l : list float) : float :=
  sum l / of_int (len l).

(** [np.std(a)]: population standard deviation. *)
Definition std (l : list float) : float :=
  let m := mean l in
  sqrt (mean (map (fun x => (x - m) * (x - m)) l)).

(** [np.abs(a)]. *)
Definition abs (l : list float) : list float := map PrimFloat.abs l.

(** Interior points of [np.gradient] at unit spacing:
    [(f[2:] - f[:-2]) / 2.0]. *)
Fixpoint central (f : list float) : list float :=
  match f with
  | a :: ((_ :: c :: _) as t) => (c - a) / (2 * 1) :: central t
  | _ => []
  end.

(** [np.gradient(f)] for a 1-D array: one-sided differences at the two
    ends, central differences inside; fewer than two points raise. *)
Definition gradient (f : list float) : result (list float) :=
  match f with
  | f0 :: f1 :: _ =>
      let n := length f in
      Ok ((f1 - f0) / 1
            :: central f
            ++ [(nth (n - 1) f nan - nth (n - 2) f nan) / 1])
  | _ => Raise ValueError
  end.

(** The scan of [np.argmin] on floats: a later element replaces the
    minimum when it is not [>=] it, and the scan stops at a NaN. *)
Fixpoint argmin_scan (l : list float) (i : nat) (mp : float) (ind : nat)
  : nat :=
  match l with
  | [] => ind
  | x :: l' =>
      if is_nan mp then ind
      else if mp <=? x then argmin_scan l' (S i) mp ind
      else argmin_scan l' (S i) x i
  end.

(** [np.argmin(a)]: the first index of the minimum; raises when empty. *)
Definition argmin (l : list float) : result Z :=
  match l with
  | [] => Raise ValueError
  | x :: l' => Ok (Z.of_nat (argmin_scan l' 1 x 0))
  end.

End Np.


(* ================================================================== *)
(** ** The numerical routines taken from numpy and scipy               *)
(* ================================================================== *)

(** What [scipy.optimize.minimize] hands back, as far as the program reads
    it: [result.success] and [result.x[0]]. *)
Record OptimizeResult : Type := {
  success : bool;
  x0 : float;
}.

Class NumericLib : Type := {
  (** [np.log] on one number. *)
  np_log : float -> float;
  (** [a ** b] on floats. *)
  np_power : float -> float -> float;
  (** [gaussian_filter1d(input, sigma=sigma)]. *)
  gaussian_filter1d : list float -> float -> list float;
  (** [genpareto.logpdf(data, shape, loc=loc, scale=scale)]. *)
  genpareto_logpdf :
    list float -> float -> float -> float -> result (list float);
  (** [minimize(fun, x0, bounds=[(lo, hi)], method='L-BFGS-B')]. *)
  minimize :
    (float -> result float) -> float -> float * float -> OptimizeResult;
}.

(** [np.log(a)] on an array. *)
Definition np_log_array `{NumericLib} (a : list float) : list float :=
  map np_log a.

(** The contracts of the library routines that the proofs rely on. *)
Definition filter_keeps_length `{NumericLib} : Prop :=
  forall input sigma,
    length (gaussian_filter1d input sigma) = length input.

Definition minimize_respects_bounds `{NumericLib} : Prop :=
  forall f guess lo hi,
    success (minimize f guess (lo, hi)) = true ->
    (lo <=? x0 (minimize f guess (lo, hi)))%float = true /\
    (x0 (minimize f guess (lo, hi)) <=? hi)%float = true /\
    is_finite (x0 (minimize f guess (lo, hi))) = true.

(* ================================================================== *)
(** ** src/smoothed_Hill_estimator.py                                  *)
(* ================================================================== *)

Module SmoothedHill.
Section WithLib.

Context `{NumericLib}.
Open Scope float_scope.

(** [hill_estimator(data, k_values)]: the raw Hill curve. *)
Definition hill_estimator (data : list float) (k_values : list Z)
  : result (list float) :=
  let data := Np.flip (Np.sort data) in
  comprehension
    (fun k =>
       if (k <? len data)%Z then
         let top := np_log_array (prefix data k) in
         xk <- getitem data k ;;
         Ok (Np.mean (map (fun l => l - np_log xk) top))
       else Ok nan)
    k_values.

(** [smoothed_hill_estimator(data, k_values, sigma)]. *)
Definition smoothed_hill_estimator (data : list float) (k_values : list Z)
    (sigma : float) : result (list float) :=
  raw <- hill_estimator data k_values ;;
  Ok (gaussian_filter1d raw sigma).

(** [select_optimal_k(smoothed_hill, k_values, window)]. *)
Definition select_optimal_k (smoothed_hill : list float)
    (k_values : list Z) (window : float) : result Z :=
  g <- Np.gradient smoothed_hill ;;
  let slope := Np.abs g in
  let slope_smooth := gaussian_filter1d slope window in
  min_slope_idx <- Np.argmin slope_smooth ;;
  getitem k_values min_slope_idx.


(** [genpareto.fit(exceedances)]: (shape, loc, scale). *)
Variable genpareto_fit : list float -> float * float * float.

(** [estimate_var_es_gpd(data, threshold, confidence_level)]:
    (var, es, shape, scale). *)
Definition estimate_var_es_gpd (data : list float) (threshold : float)
    (confidence_level : float) : result (float * float * float * float) :=
  let exceedances :=
    map (fun v => v - threshold) (filter (fun v => threshold <? v) data) in
  if (len exceedances <? 2)%Z then Raise ValueError
  else
    let '(shape, _, scale) := genpareto_fit exceedances in
    let prob := 1 - confidence_level in
    let var := threshold + (scale / shape) * (np_power (1 / prob) shape - 1) in
    let es :=
      if 1 <=? shape then infinity
      else var + (scale - shape * threshold) / (1 - shape) in
    Ok (var, es, shape, scale).

(** The threshold of the script's main block (lines 93-100):
    [k_values = np.arange(5, min(len(data) - 10, 200))], smoothing with
    sigma 3, then [np.sort(data)[::-1][optimal_k]]. *)
Definition main_threshold (data : list float) : result float :=
  let k_values := Np.arange 5 (Z.min (len data - 10) 200) in
  smoothed_vals <- smoothed_hill_estimator data k_values 3 ;;
  optimal_k <- select_optimal_k smoothed_vals k_values 5 ;;
  let sorted_data := Np.flip (Np.sort data) in
  getitem sorted_data optimal_k.

End WithLib.
End SmoothedHill.

(* ================================================================== *)
(** ** pandas: [Series.mean], [Series.rank], [astype('Int64')]         *)
(* ================================================================== *)

Module Pd.

Open Scope float_scope.

(** A cell of a numeric column: [None] and NaN are both missing. *)
Definition isna (v : option float) : bool :=
  match v with
  | None => true
  | Some f => is_nan f
  end.

(** [Series.mean()]: NaN entries are skipped. *)
Definition mean (s : list float) : float :=
  Np.mean (filter (fun v => negb (is_nan v)) s).

Definition count {A} (p : A -> bool) (l : list A) : Z :=
  len (filter p l).

(** [before ascending v w]: [w] is ranked strictly before [v]. *)
Definition before (ascending : bool) (v w : option float) : bool :=
  match v, w with
  | Some a, Some b =>
      negb (is_nan a) && negb (is_nan b) &&
      (if ascending then b <? a else a <? b)
  | _, _ => false
  end.

Definition tied (v w : option float) : bool :=
  match v, w with
  | Some a, Some b => a =? b
  | _, _ => false
  end.

(** [Series.rank(ascending=ascending, na_option='bottom')] with the default
    [method='average'].  A rank is a float64 multiple of 1/2; the model
    holds TWICE the rank, as an exact integer.  A tie group shares the mean
    of the positions it occupies, and the missing cells form one tie group
    placed after every present value. *)
Definition rank (ascending : bool) (col : list (option float)) : list Z :=
  let present := count (fun w => negb (isna w)) col in
  let missing := count isna col in
  map (fun v =>
         if isna v then (2 * present + missing + 1)%Z
         else (2 * count (before ascending v) col
               + count (tied v) col + 1)%Z)
      col.

(** [astype('Int64')] on such a float column: a value that is not a whole
    number cannot be cast, and the cast raises [TypeError].  The cells of
    an [Int64] column are nullable: [None] is [<NA>]. *)
Definition astype_Int64 (twice : list Z) : result (list (option Z)) :=
  comprehension
    (fun t => if Z.even t then Ok (Some (t / 2)%Z) else Raise TypeError)
    twice.

End Pd.

(* ================================================================== *)
(** ** src/generate_data.py                                            *)
(* ================================================================== *)

Module GenerateData.

Open Scope float_scope.

(** *** Configuration *)
Definition LOSS_THRESHOLD : Z := 30.
Definition HILL_K_MIN : Z := 5.
Definition HILL_SIGMA : float := 2.
Definition SELECT_K_SIGMA : float := 5.
Definition GPD_ALPHA : float := 0.95.
Definition MIN_EXCEEDANCES : Z := 5.

(** *** Data structures *)
Record Bar : Type := { Open : float; Close : float }.
Definition DataFrame : Type := list Bar.
(** [PriceData]: a dict, iterated in insertion order. *)
Definition PriceData : Type := list (String.string * DataFrame).
(** A row of the metadata; [Stock_Ticker] is its column "Ticker" (the
    name [Ticker] is the field of [RiskRecord] below). *)
Record MetaRow : Type := {
  Company_Name : String.string;
  Stock_Ticker : String.string;
}.
Record RiskRecord : Type := {
  Name : String.string;
  Ticker : String.string;
  Average_Return : float;
  VaR : option float;
  ES : option float;
}.
Record SummaryRow : Type := {
  record : RiskRecord;
  Average_Return_Rank : option Z;
  VaR_Rank : option Z;
  ES_Rank : option Z;
}.

Section WithLib.

Context `{NumericLib}.

(** [hill_estimator(data, k_vals)]: the Hill curve, smoothed. *)
Definition hill_estimator (data : list float) (k_vals : list Z)
  : result (list float) :=
  let data_sorted := Np.flip (Np.sort data) in
  raw <- comprehension
           (fun k =>
              if (k <? len data_sorted)%Z then
                let top := np_log_array (prefix data_sorted k) in
                xk <- getitem data_sorted k ;;
                Ok (Np.mean (map (fun l => l - np_log xk) top))
              else Ok nan)
           k_vals ;;
  Ok (gaussian_filter1d raw HILL_SIGMA).

(** [select_k(smoothed, k_vals)]. *)
Definition select_k (smoothed : list float) (k_vals : list Z) : result Z :=
  g <- Np.gradient smoothed ;;
  i <- Np.argmin (gaussian_filter1d (Np.abs g) SELECT_K_SIGMA) ;;
  getitem k_vals i.

(** [estimate_hill_shape(data, k)]. *)
Definition estimate_hill_shape (data : list float) (k : Z) : result float :=
  let data_sorted := Np.flip (Np.sort data) in
  if (len data_sorted <=? k)%Z || (k <=? 0)%Z then Raise ValueError
  else
    let top := np_log_array (prefix data_sorted k) in
    xk <- getitem data_sorted k ;;
    Ok (Np.mean (map (fun l => l - np_log xk) top)).

(** [gpd_log_likelihood_fixed_shape(scale, data, shape)]. *)
Definition gpd_log_likelihood_fixed_shape (scale : float)
    (data : list float) (shape : float) : result float :=
  if scale <=? 0 then Ok infinity
  else
    try_except
      (lp <- genpareto_logpdf data shape 0 scale ;;
       Ok (- Np.sum lp))
      (fun _ => Ok infinity).

(** [fit_gpd_mle_fixed_shape(data, shape)]; the message printed on a
    failed fit is not modelled. *)
Definition fit_gpd_mle_fixed_shape (data : list float) (shape : float)
  : option float :=
  if (len data <? MIN_EXCEEDANCES)%Z then None
  else
    let initial_guess := Np.std data in
    let bounds := (1e-6, infinity) in
    let result :=
      minimize (fun scale => gpd_log_likelihood_fixed_shape scale data shape)
               initial_guess bounds in
    if success result then Some (x0 result) else None.

(** Lines 113-122 of [compute_gpd_risks_mle]: VaR and ES from the
    threshold, the shape and a fitted scale. *)
Definition var_es (threshold shape scale alpha : float) : float * float :=
  let q := 1 - alpha in
  if shape =? 0 then
    let var := threshold + scale * np_log (1 / q) in
    let es := threshold + scale * (np_log (1 / q) + 1) in
    (var, es)
  else if 0 <? shape then
    let var := threshold + (scale / shape) * (np_power (1 / q) shape - 1) in
    let es := threshold + (var - threshold + scale) / (1 - shape) in
    (var, es)
  else
    let var := threshold + (scale / shape) * (np_power (1 / q) shape - 1) in
    let es := threshold + (var - threshold + scale) / (1 - shape) in
    (var, es).

(** [data[data > threshold] - threshold]. *)
Definition exceedances (data : list float) (threshold : float)
  : list float :=
  map (fun v => v - threshold) (filter (fun v => threshold <? v) data).

(** [compute_gpd_risks_mle(data, threshold, alpha)]. *)
Definition compute_gpd_risks_mle (data : list float) (threshold : float)
    (alpha : float) : result (option float * option float) :=
  let exceed := exceedances data threshold in
  if (len exceed <? MIN_EXCEEDANCES)%Z then Ok (None, None)
  else
    let k_vals := Np.arange HILL_K_MIN (Z.min (len exceed - 10) 150) in
    if (len k_vals <? 2)%Z then Ok (None, None)
    else
      smoothed <- hill_estimator exceed k_vals ;;
      k_star <- select_k smoothed k_vals ;;
      shape <- estimate_hill_shape exceed k_star ;;
      let scale := fit_gpd_mle_fixed_shape exceed shape in
      match scale with
      | Some scale =>
          let '(var, es) := var_es threshold shape scale alpha in
          Ok (Some var, Some es)
      | None => Ok (None, None)
      end.

(** [(df["Close"] - df["Open"]) / df["Open"] * 100]. *)
Definition daily_returns (df : DataFrame) : list float :=
  map (fun b => (Close b - Open b) / Open b * 100) df.

(** [-daily_ret[daily_ret < 0].dropna().values]. *)
Definition loss_series (daily_ret : list float) : list float :=
  map PrimFloat.opp
      (filter (fun r => negb (is_nan r)) (filter (fun r => r <? 0) daily_ret)).

(** the company name of a ticker, the ticker itself when unknown. *)
Definition company_name (metadata : list MetaRow) (ticker : String.string)
  : String.string :=
  match filter (fun m => String.eqb (Stock_Ticker m) ticker) metadata with
  | m :: _ => Company_Name m
  | [] => ticker
  end.

(** The body of the [try] in the loop of [compute_risks], for one ticker:
    [Ok None] is a [continue] (the ticker is skipped), [Ok (Some r)] the
    record appended. *)
Definition ticker_record (metadata : list MetaRow)
    (ticker : String.string) (df : DataFrame)
  : result (option RiskRecord) :=
  let daily_ret := daily_returns df in
  let losses := loss_series daily_ret in
  if (len losses <? LOSS_THRESHOLD)%Z then Ok None
  else
    let k_vals := Np.arange HILL_K_MIN (Z.min (len losses - 10) 150) in
    if (len k_vals <? 2)%Z then Ok None
    else
      smoothed <- hill_estimator losses k_vals ;;
      k_star <- select_k smoothed k_vals ;;
      threshold <- getitem (Np.flip (Np.sort losses)) k_star ;;
      risks <- compute_gpd_risks_mle losses threshold GPD_ALPHA ;;
      let avg_return := Pd.mean daily_ret in
      let name := company_name metadata ticker in
      Ok (Some {| Name := name; Ticker := ticker;
                  Average_Return := avg_return;
                  VaR := fst risks; ES := snd risks |}).

(** The loop of [compute_risks]: an exception inside the [try] is
    printed and the ticker contributes no record. *)
Fixpoint collect_records (metadata : list MetaRow) (prices : PriceData)
  : list RiskRecord :=
  match prices with
  | [] => []
  | (ticker, df) :: rest =>
      match ticker_record metadata ticker df with
      | Ok (Some r) => r :: collect_records metadata rest
      | Ok None | Raise _ => collect_records metadata rest
      end
  end.

(** Lines 154-158 of [compute_risks]: the three rank columns. *)
Definition add_ranks (records : list RiskRecord)
  : result (list SummaryRow) :=
  r_avg <- Pd.astype_Int64
             (Pd.rank true (map (fun r => Some (Average_Return r)) records)) ;;
  r_var <- Pd.astype_Int64 (Pd.rank false (map VaR records)) ;;
  r_es <- Pd.astype_Int64 (Pd.rank false (map ES records)) ;;
  Ok (map (fun '(r, a, v, e) =>
             {| record := r; Average_Return_Rank := a;
                VaR_Rank := v; ES_Rank := e |})
          (combine (combine (combine records r_avg) r_var) r_es)).

(** [compute_risks(prices, metadata)]. *)
Definition compute_risks (prices : PriceData) (metadata : list MetaRow)
  : result (list SummaryRow) :=
  add_ranks (collect_records metadata prices).

End WithLib.
End GenerateData.

(* ================================================================== *)
(** ** A library instance that runs                                    *)
(* ================================================================== *)

(** [Soft] implements the interface in binary64 arithmetic so that the
    program can be evaluated on concrete inputs: logarithm and exponential
    by argument reduction and a series (a few units in the last place from
    the library's), scipy's Gaussian correlation with reflected borders in
    the summation order of its symmetric-kernel loop, the Generalized Pareto
    log-density by its closed form, and a bounded grid search standing in
    for L-BFGS-B. *)
Module Soft.

Open Scope float_scope.

(** Truncation of a float to an integer, as Python's [int(x)]. *)
Definition trunc (f : float) : Z :=
  match Prim2SF f with
  | S754_finite s m e =>
      let a := if (0 <=? e)%Z then (Z.pos m * 2 ^ e)%Z
               else (Z.pos m / 2 ^ (- e))%Z in
      if s then (- a)%Z else a
  | _ => 0%Z
  end.

Definition nearest (f : float) : Z :=
  if f <? 0 then trunc (f - 0.5) else trunc (f + 0.5).

Definition ln2 : float := 0x1.62e42fefa39efp-1.

(** [sum_(j >= i) t^(j-i) / (2j+1)], [n] terms, by Horner's rule. *)
Fixpoint atanh_tail (n : nat) (i : Z) (t : float) : float :=
  match n with
  | O => 0
  | S n' => 1 / Np.of_int (2 * i + 1) + t * atanh_tail n' (i + 1) t
  end.

Definition log (v : float) : float :=
  if is_nan v then nan
  else if v <? 0 then nan
  else if v =? 0 then neg_infinity
  else if v =? infinity then infinity
  else
    let '(m, e) := Z.frexp v in
    let '(m, e) := if m <? 0x1.6a09e667f3bcdp-1
                   then (2 * m, (e - 1)%Z) else (m, e) in
    let s := (m - 1) / (m + 1) in
    Np.of_int e * ln2 + 2 * s * atanh_tail 14 0 (s * s).

(** [sum_(j >= i) r^(j-i) * i! / j!], [n] terms. *)
Fixpoint exp_tail (n : nat) (i : Z) (r : float) : float :=
  match n with
  | O => 1
  | S n' => 1 + r / Np.of_int i * exp_tail n' (i + 1) r
  end.

Definition exp (v : float) : float :=
  if is_nan v then nan
  else if 710 <? v then infinity
  else if v <? -746 then 0
  else
    let k := nearest (v / ln2) in
    let r := v - Np.of_int k * ln2 in
    Z.ldexp (exp_tail 20 1 r) k.

(** [a ** b] for the positive bases the program raises to a power. *)
Definition power (a b : float) : float :=
  if b =? 0 then 1
  else if a =? 1 then 1
  else if 0 <? a then exp (b * log a)
  else nan.

(** [mode='reflect']: (d c b a | a b c d | d c b a). *)
Definition reflect (n i : Z) : Z :=
  let p := (i mod (2 * n))%Z in
  if (p <? n)%Z then p else (2 * n - 1 - p)%Z.

Definition at_reflected (input : list float) (i : Z) : float :=
  nth (Z.to_nat (reflect (len input) i)) input nan.

(** [_gaussian_kernel1d(sigma, 0, radius)], the half from 0 to radius. *)
Definition kernel (sigma : float) (radius : Z) : list float :=
  let phi := fun j : Z =>
    exp (-0.5 / (sigma * sigma) * Np.of_int (j * j)) in
  let all := map phi (Np.arange (- radius) (radius + 1)) in
  let total := Np.sum all in
  map (fun j => phi j / total) (Np.arange 0 (radius + 1)).

(** One output sample of [correlate1d] with a symmetric kernel. *)
Definition correlate_at (input : list float) (w : list float)
    (radius : Z) (i : Z) : float :=
  fold_left
    (fun tmp j =>
       tmp + (at_reflected input (i - j) + at_reflected input (i + j))
             * nth (Z.to_nat j) w 0)
    (rev (Np.arange 1 (radius + 1)))
    (at_reflected input i * nth 0 w 0).

Definition gaussian (input : list float) (sigma : float) : list float :=
  let radius := trunc (4 * sigma + 0.5) in
  let w := kernel sigma radius in
  map (correlate_at input w radius) (Np.arange 0 (len input)).

(** [genpareto.logpdf]: [-inf] outside the support, NaN for a scale that
    is not positive. *)
Definition logpdf_one (c loc scale v : float) : float :=
  let y := (v - loc) / scale in
  if negb (0 <? scale) || is_nan c || is_nan y then nan
  else if y <? 0 then neg_infinity
  else if (c <? 0) && (- (1 / c) <? y) then neg_infinity
  else if c =? 0 then - y - log scale
  else - ((c + 1) * log (1 + c * y)) / c - log scale.

Definition logpdf (data : list float) (c loc scale : float)
  : result (list float) :=
  Ok (map (logpdf_one c loc scale) data).

Definition clip (lo hi v : float) : float :=
  if v <? lo then lo else if hi <? v then hi else v.

(** The candidates of the search: the guess scaled by the powers of a
    ratio. *)
Fixpoint grid (n : nat) (v : float) (ratio : float) : list float :=
  match n with
  | O => []
  | S n' => v :: grid n' (v * ratio) ratio
  end.

Definition value_at (f : float -> result float) (v : float) : float :=
  match f v with
  | Ok y => if is_nan y then infinity else y
  | Raise _ => infinity
  end.

(** The best of the candidates above and below the guess, each clipped to
    the bounds; a success when it is a finite point within the bounds with
    a finite cost. *)
Definition search (f : float -> result float) (guess : float)
    (bounds : float * float) : OptimizeResult :=
  let '(lo, hi) := bounds in
  let start := clip lo hi guess in
  let cands :=
    map (clip lo hi) (grid 12 start 1.5 ++ grid 12 start (2 / 3)) in
  let best :=
    fold_left (fun b c => if value_at f c <? value_at f b then c else b)
              cands start in
  {| success := (lo <=? best) && (best <=? hi) && is_finite best
                && is_finite (value_at f best);
     x0 := best |}.

#[export] Instance lib : NumericLib := {|
  np_log := log;
  np_power := power;
  gaussian_filter1d := gaussian;
  genpareto_logpdf := logpdf;
  minimize := search;
|}.

End Soft.

(* ================================================================== *)
(** ** Stages of the two functions, and the order statistic of the spec *)
(* ================================================================== *)

Module Stages.
Section WithLib.

Context `{NumericLib}.
Import GenerateData.
Open Scope float_scope.

(** Lines 136-141 of [compute_risks]: the selected order statistic and
    the threshold handed to [compute_gpd_risks_mle]. *)
Definition threshold_selection (losses : list float) : result (Z * float) :=
  let k_vals := Np.arange HILL_K_MIN (Z.min (len losses - 10) 150) in
  smoothed <- hill_estimator losses k_vals ;;
  k_star <- select_k smoothed k_vals ;;
  threshold <- getitem (Np.flip (Np.sort losses)) k_star ;;
  Ok (k_star, threshold).

(** Lines 101-109 of [compute_gpd_risks_mle]: the exceedances and the
    shape handed to [fit_gpd_mle_fixed_shape]; [None] when the function
    returns before fitting. *)
Definition fit_inputs (data : list float) (threshold : float)
  : result (option (list float * float)) :=
  let exceed := exceedances data threshold in
  if (len exceed <? MIN_EXCEEDANCES)%Z then Ok None
  else
    let k_vals := Np.arange HILL_K_MIN (Z.min (len exceed - 10) 150) in
    if (len k_vals <? 2)%Z then Ok None
    else
      smoothed <- hill_estimator exceed k_vals ;;
      k_star <- select_k smoothed k_vals ;;
      shape <- estimate_hill_shape exceed k_star ;;
      Ok (Some (exceed, shape)).

(** The specification's wording of the threshold: "the k-th largest loss
    value", the k-th element of the descending-sorted losses, counting
    from 1. *)
Definition kth_largest (losses : list float) (k : Z) : result float :=
  if (k <? 1)%Z then Raise IndexError
  else getitem (Np.flip (Np.sort losses)) (k - 1).

End WithLib.
End Stages.

(* ================================================================== *)
(** ** src/generate_data.py: tickers, downloads, the summary file       *)
(* ================================================================== *)

Module Batch.

Import GenerateData.
Local Open Scope string_scope.

(** What [pd.read_excel(TICKERS_FILE)] does: it raises
    [FileNotFoundError], or returns the rows of the workbook, read here
    through their columns Company_Name and Stock_Symbol. *)
Inductive workbook : Type :=
| FileNotFound
| Sheet (rows : list (string * string)).

(** [f"{t}.TO" if t in canadian else t], [canadian = {"RY", "TD"}]. *)
Definition with_suffix (t : string) : string :=
  if String.eqb t "RY" || String.eqb t "TD" then t ++ ".TO" else t.

(** [read_tickers()] of generate_data.py. *)
Definition read_tickers (book : workbook) : list MetaRow :=
  match book with
  | Sheet rows =>
      map (fun '(name, symbol) =>
             {| Company_Name := name; Stock_Ticker := with_suffix symbol |})
          rows
  | FileNotFound => []
  end.

(** [df.dropna()] on the columns Open and Close. *)
Definition dropna (df : DataFrame) : DataFrame :=
  filter (fun b => negb (is_nan (Open b)) && negb (is_nan (Close b))) df.

(** [results[ticker] = df] on a dict: a key already present keeps its
    place and takes the new value, a new key goes last. *)
Fixpoint dict_set (results : PriceData) (ticker : string) (df : DataFrame)
  : PriceData :=
  match results with
  | [] => [(ticker, df)]
  | (t, d) :: rest =>
      if String.eqb t ticker then (t, df) :: rest
      else (t, d) :: dict_set rest ticker df
  end.

Section Download.

(** [yf.download(ticker, ...)[["Open", "Close"]]]: the rows, or whatever
    exception the call or the column selection raises. *)
Variable yf_download : string -> result DataFrame.

(** One turn of the loop of [download_prices]. *)
Definition download_one (results : PriceData) (ticker : string) : PriceData :=
  match yf_download ticker with
  | Ok raw =>
      let df := dropna raw in
      match df with
      | [] => results
      | _ :: _ => dict_set results ticker df
      end
  | Raise _ => results
  end.

(** [download_prices(ticker_list)]. *)
Definition download_prices (ticker_list : list string) : PriceData :=
  fold_left download_one ticker_list [].

(** A frame as [download_prices] stores it under a ticker: not empty, and
    the rows without NaN of what the download of that ticker returned. *)
Definition stored (ticker : string) (df : DataFrame) : Prop :=
  df <> [] /\ exists raw, yf_download ticker = Ok raw /\ df = dropna raw.

Context `{NumericLib}.

(** [save_summary(df)]: the table written to the summary file, [None]
    when nothing is written. *)
Definition save_summary (df : list SummaryRow) : option (list SummaryRow) :=
  match df with
  | [] => None
  | _ :: _ => Some df
  end.

(** How the script ends. *)
Inductive outcome : Type :=
| Exited
| Raised (e : exn)
| Finished (written : option (list SummaryRow)).

(** The main block of generate_data.py. *)
Definition main (book : workbook) : outcome :=
  let metadata := read_tickers book in
  match metadata with
  | [] => Exited
  | _ :: _ =>
      let prices := download_prices (map Stock_Ticker metadata) in
      match compute_risks prices metadata with
      | Ok summary_df => Finished (save_summary summary_df)
      | Raise e => Raised e
      end
  end.

End Download.
End Batch.

(* ================================================================== *)
(** ** src/smoothed_Hill_estimator.py: tickers and the script           *)
(* ================================================================== *)

Module Script.

Open Scope float_scope.

(** [read_tickers()] of smoothed_Hill_estimator.py, on the column
    Stock_Symbol of the workbook ([None] is an empty cell):
    [dropna().tolist()], then the suffix. *)
Definition read_tickers (symbols : list (option string)) : list string :=
  map Batch.with_suffix
      (flat_map (fun c => match c with Some t => [t] | None => [] end)
                symbols).

(** One turn of the loop [for delta in [-10, 0, 10]] of the main block,
    up to the threshold it fits on: [thresh] is the variable of that name
    ([None] while unbound), and reading it unbound raises inside the
    [try], which prints and goes on. *)
Definition probe (data : list float) (optimal_k : Z)
    (thresh : option float) (delta : Z) : result (option float) :=
  let test_k := (optimal_k + delta)%Z in
  if (test_k <? len data)%Z then
    t <- getitem (Np.flip (Np.sort data)) test_k ;;
    Ok (Some t)
  else Ok thresh.

(** The thresholds the three turns fit on, in order. *)
Fixpoint probes (data : list float) (optimal_k : Z)
    (thresh : option float) (deltas : list Z) : result (list (option float)) :=
  match deltas with
  | [] => Ok []
  | delta :: rest =>
      t <- probe data optimal_k thresh delta ;;
      ts <- probes data optimal_k t rest ;;
      Ok (t :: ts)
  end.

Definition sensitivity_thresholds (data : list float) (optimal_k : Z)
  : result (list (option float)) :=
  probes data optimal_k None [-10; 0; 10]%Z.

End Script.

(* ================================================================== *)
(** ** The order of binary64 numbers, as a key                          *)
(* ================================================================== *)

Module Order.

(** A triple of integers ordered lexicographically the way the numbers are
    ordered: the class (-inf, negative, zero, positive, +inf, NaN), then
    exponent and mantissa. *)
Definition key (v : float) : Z * Z * Z :=
  match Prim2SF v with
  | S754_nan => (3, 0, 0)
  | S754_infinity true => (-2, 0, 0)
  | S754_infinity false => (2, 0, 0)
  | S754_zero _ => (0, 0, 0)
  | S754_finite true m e => (-1, - e, - Z.pos m)
  | S754_finite false m e => (1, e, Z.pos m)
  end%Z.

Definition lt (a b : Z * Z * Z) : Prop :=
  let '(a1, a2, a3) := a in
  let '(b1, b2, b3) := b in
  (a1 < b1 \/ (a1 = b1 /\ (a2 < b2 \/ (a2 = b2 /\ a3 < b3))))%Z.


End Order.

(** The doubled rank that [Pd.rank] gives the cell [v] of the column. *)
Definition doubled_rank (ascending : bool) (col : list (option float))
    (v : option float) : Z :=
  if Pd.isna v
  then 2 * Pd.count (fun w => negb (Pd.isna w)) col
       + Pd.count Pd.isna col + 1
  else 2 * Pd.count (Pd.before ascending v) col
       + Pd.count (Pd.tied v) col + 1.

(* ================================================================== *)
(** ** Sample inputs                                                   *)
(* ================================================================== *)

Module Samples.

Import GenerateData.
Open Scope float_scope.

(** Forty-eight losses [1 + 1/i] percent, [i = 1 .. 48]. *)
Definition losses48 : list float :=
  map (fun i => 1 + 1 / Np.of_int i) (Np.arange 1 49).

(** Forty-eight heavy-tailed losses [64 / i^2] percent, and the 38-th
    largest of them. *)
Definition heavy48 : list float :=
  map (fun i => 64 / Np.of_int (i * i)) (Np.arange 1 49).
Definition heavy_threshold : float := 64 / 1444.

(** The 38-th largest of [losses48]. *)
Definition threshold48 : float := 1 + 1 / 38.

(** Ten losses, 1 to 10 percent. *)
Definition ten_losses : list float := map Np.of_int (Np.arange 1 11).

(** A ticker that opened at 100 and closed at [close] on each of [n]
    days. *)
Definition steady (n : nat) (close : float) : DataFrame :=
  repeat {| Open := 100; Close := close |} n.

Definition rec3 (avg : float) (var es : option float) : RiskRecord :=
  {| Name := "Synthetic"%string; Ticker := "SYN"%string;
     Average_Return := avg; VaR := var; ES := es |}.

(** The three synthetic records of the ranking example. *)
Definition ranking_example : list RiskRecord :=
  [ rec3 1 (Some 5) (Some 4);
    rec3 3 (Some 2) (Some 1);
    rec3 2 (Some 8) (Some 9) ].

(** One fitted ticker and two whose fit failed. *)
Definition two_failed_fits : list RiskRecord :=
  [ rec3 (-1) (Some 3) (Some 4);
    rec3 (-2) None None;
    rec3 (-3) None None ].

End Samples.

Module MoreSamples.

Import GenerateData Batch Samples.
Local Open Scope string_scope.

(** A workbook of two companies, one of them Canadian. *)
Definition two_companies : workbook :=
  Sheet [("Royal Bank", "RY"); ("Acme", "ACME")].

(** A download that knows one ticker: thirty days from 100 to 99. *)
Definition one_download (ticker : string) : result DataFrame :=
  if String.eqb ticker "RY.TO" then Ok (steady 30 99) else Raise LibraryError.

(** The table of the ranking example. *)
Definition ranked_example : list SummaryRow :=
  [ {| record := rec3 1 (Some 5) (Some 4); Average_Return_Rank := Some 1%Z;
       VaR_Rank := Some 2%Z; ES_Rank := Some 2%Z |};
    {| record := rec3 3 (Some 2) (Some 1); Average_Return_Rank := Some 3%Z;
       VaR_Rank := Some 3%Z; ES_Rank := Some 3%Z |};
    {| record := rec3 2 (Some 8) (Some 9); Average_Return_Rank := Some 2%Z;
       VaR_Rank := Some 1%Z; ES_Rank := Some 1%Z |} ].

(** Twenty losses, 1 to 20 percent. *)
Definition twenty_losses : list float := map Np.of_int (Np.arange 1 21).

End MoreSamples.

(* ================================================================== *)
(** * Properties                                                       *)
(* ================================================================== *)

Unset Implicit Arguments.

(** ** Comparisons of binary64 numbers *)

Module FloatFacts.

Open Scope float_scope.

Ltac to_spec :=
  repeat first [ rewrite ltb_spec | rewrite leb_spec | rewrite eqb_spec
               | rewrite opp_spec ].

Ltac by_cases f :=
  destruct (Prim2SF f) as [[|] | [|] | | [|] ? ?];
  cbn; try reflexivity; try discriminate.

(** A number below zero is not NaN. *)
Lemma negative_not_nan (r : float) :
  (r <? 0) = true -> is_nan r = false.
Proof.
  unfold is_nan. to_spec.
  change (Prim2SF 0) with (S754_zero false).
  destruct (Prim2SF r) as [[|] | [|] | | [|] m e];
    cbn; try reflexivity; try discriminate.
  intros _. unfold SFeqb, SFcompare.
  now rewrite Z.compare_refl, Pos.compare_cont_refl.
Qed.

(** The opposite of a number below zero is above zero. *)
Lemma opp_negative_positive (r : float) :
  (r <? 0) = true -> (0 <? - r) = true.
Proof.
  to_spec. change (Prim2SF 0) with (S754_zero false). by_cases r.
Qed.

(** A number at or above the lower bound [1e-6] of the scale is above
    zero. *)
Lemma above_bound_positive (s : float) :
  (1e-6 <=? s) = true -> (0 <? s) = true.
Proof.
  to_spec.
  change (Prim2SF 0) with (S754_zero false).
  change (Prim2SF 1e-6)
    with (S754_finite false 4722366482869645 (-72)).
  by_cases s.
Qed.

End FloatFacts.

(** ** Python lists, comprehensions and the numpy routines *)

Module ArrayFacts.

Lemma len_nonneg {A} (l : list A) : (0 <= len l)%Z.
Proof. unfold len. lia. Qed.

Lemma len_map {A B} (f : A -> B) (l : list A) : len (map f l) = len l.
Proof. unfold len. now rewrite length_map. Qed.

(** An index inside the list reads an element of the list. *)
Lemma getitem_inside {A} (l : list A) (k : Z) :
  (0 <= k < len l)%Z ->
  exists v, getitem l k = Ok v /\ nth_error l (Z.to_nat k) = Some v.
Proof.
  intros Hk. unfold getitem, len in *.
  destruct (k <? 0)%Z eqn:Hneg; [lia |].
  rewrite Hneg.
  destruct (nth_error l (Z.to_nat k)) as [v |] eqn:Hnth.
  - now exists v.
  - apply nth_error_None in Hnth. lia.
Qed.

(** Whatever [l[k]] returns is an element of [l]. *)
Lemma getitem_In {A} (l : list A) (k : Z) (v : A) :
  getitem l k = Ok v -> In v l.
Proof.
  unfold getitem.
  destruct ((if (k <? 0)%Z then (k + len l)%Z else k) <? 0)%Z;
    [discriminate |].
  destruct (nth_error l _) as [w |] eqn:Hnth; [| discriminate].
  intros [= <-]. eapply nth_error_In, Hnth.
Qed.


Lemma comprehension_length {A B} (f : A -> result B) xs ys :
  comprehension f xs = Ok ys -> length ys = length xs.
Proof.
  revert ys. induction xs as [| x xs IH]; intros ys; cbn.
  - now intros [= <-].
  - destruct (f x) as [y |]; cbn; [| discriminate].
    destruct (comprehension f xs) as [zs |]; cbn; [| discriminate].
    intros [= <-]. cbn. f_equal. now apply IH.
Qed.

(** A comprehension whose element expression never raises on the
    elements of the list returns. *)
Lemma comprehension_returns {A B} (f : A -> result B) xs :
  (forall v, In v xs -> exists y, f v = Ok y) ->
  exists ys, comprehension f xs = Ok ys.
Proof.
  induction xs as [| x xs IH]; intros Hf; cbn.
  - now exists [].
  - destruct (Hf x (or_introl eq_refl)) as [y ->].
    destruct IH as [ys ->]; [intros v Hv; apply Hf; now right |].
    cbn. now exists (y :: ys).
Qed.


Lemma len_arange (a b : Z) : len (Np.arange a b) = Z.max 0 (b - a).
Proof. unfold len, Np.arange. rewrite length_map, length_seq. lia. Qed.

Lemma In_arange (a b k : Z) : In k (Np.arange a b) <-> (a <= k < b)%Z.
Proof.
  unfold Np.arange. rewrite in_map_iff. split.
  - intros (i & <- & Hi). apply in_seq in Hi. lia.
  - intros Hk. exists (Z.to_nat (k - a)). split; [lia |].
    apply in_seq. lia.
Qed.

Lemma length_insert (v : float) (l : list float) :
  length (Np.insert v l) = S (length l).
Proof.
  induction l as [| y l IH]; cbn; [reflexivity |].
  destruct (Np.sort_lt v y); cbn; [reflexivity | now rewrite IH].
Qed.

Lemma length_sort (l : list float) : length (Np.sort l) = length l.
Proof.
  unfold Np.sort. induction l as [| v l IH]; cbn; [reflexivity |].
  now rewrite length_insert, IH.
Qed.

Lemma In_insert (v w : float) (l : list float) :
  In w (Np.insert v l) <-> w = v \/ In w l.
Proof.
  induction l as [| y l IH]; cbn; [intuition congruence |].
  destruct (Np.sort_lt v y); cbn; [intuition congruence |].
  rewrite IH. intuition congruence.
Qed.

(** Sorting keeps the elements. *)
Lemma In_sort (w : float) (l : list float) : In w (Np.sort l) <-> In w l.
Proof.
  unfold Np.sort. induction l as [| v l IH]; cbn; [reflexivity |].
  rewrite In_insert, IH. intuition congruence.
Qed.

Lemma In_sorted_desc (w : float) (l : list float) :
  In w (Np.flip (Np.sort l)) <-> In w l.
Proof. unfold Np.flip. now rewrite <- in_rev, In_sort. Qed.

(** [dropna] after a selection of the negative returns drops nothing. *)
Lemma negative_returns_have_no_nan (l : list float) :
  filter (fun r => negb (is_nan r)) (filter (fun r => (r <? 0)%float) l)
  = filter (fun r => (r <? 0)%float) l.
Proof.
  induction l as [| r l IH]; cbn; [reflexivity |].
  destruct (r <? 0)%float eqn:Hr; [| exact IH].
  cbn. rewrite (FloatFacts.negative_not_nan r Hr). cbn. now rewrite IH.
Qed.

Lemma len_sorted_desc (l : list float) :
  len (Np.flip (Np.sort l)) = len l.
Proof. unfold len, Np.flip. now rewrite length_rev, length_sort. Qed.

Lemma length_central (f : list float) :
  length (Np.central f) = (length f - 2)%nat.
Proof.
  induction f as [| a [| b [| c t]] IH]; cbn in *; try reflexivity.
  rewrite IH. lia.
Qed.

(** [np.gradient] returns on two points or more, one value per point. *)
Lemma gradient_returns (f : list float) :
  (2 <= length f)%nat ->
  exists g, Np.gradient f = Ok g /\ length g = length f.
Proof.
  intros Hf. destruct f as [| f0 [| f1 t]]; cbn in Hf; try lia.
  eexists. split; [reflexivity |].
  cbn [length]. rewrite length_app, length_central. cbn. lia.
Qed.

Lemma argmin_scan_bound (l : list float) (i : nat) (mp : float) (ind : nat) :
  (ind < i)%nat -> (Np.argmin_scan l i mp ind < i + length l)%nat.
Proof.
  revert i mp ind. induction l as [| v l IH]; intros i mp ind Hi; cbn.
  - lia.
  - destruct (is_nan mp); [lia |].
    destruct (mp <=? v)%float.
    + specialize (IH (S i) mp ind). lia.
    + specialize (IH (S i) v i). lia.
Qed.

(** [np.argmin] returns a position of a non-empty array. *)
Lemma argmin_returns (l : list float) :
  l <> [] -> exists i, Np.argmin l = Ok i /\ (0 <= i < len l)%Z.
Proof.
  destruct l as [| v l]; [congruence | intros _].
  eexists. split; [reflexivity |].
  pose proof (argmin_scan_bound l 1 v 0 ltac:(lia)).
  unfold len. cbn [length]. lia.
Qed.

End ArrayFacts.

(** ** The stages of the pipeline return *)

Module PipelineFacts.
Section WithLib.

Context `{NumericLib}.
Import GenerateData ArrayFacts.

(** The smoothed curve of [generate_data.py] is the raw curve of
    [smoothed_Hill_estimator.py] passed through the Gaussian filter. *)
Lemma hill_estimator_smooths_raw (data : list float) (k_vals : list Z) :
  hill_estimator data k_vals =
  (raw <- SmoothedHill.hill_estimator data k_vals ;;
   Ok (gaussian_filter1d raw HILL_SIGMA)).
Proof. reflexivity. Qed.

Lemma raw_hill_returns (data : list float) (k_vals : list Z) :
  (forall k, In k k_vals -> (0 <= k)%Z) ->
  exists curve,
    SmoothedHill.hill_estimator data k_vals = Ok curve /\
    length curve = length k_vals.
Proof.
  intros Hk. unfold SmoothedHill.hill_estimator.
  match goal with
  | |- context [comprehension ?f k_vals] =>
      destruct (comprehension_returns f k_vals) as [curve Hc]
  end.
  - intros k Hin. cbv beta.
    destruct (k <? len (Np.flip (Np.sort data)))%Z eqn:Hlt;
      [| now eexists].
    apply Z.ltb_lt in Hlt.
    destruct (getitem_inside (Np.flip (Np.sort data)) k) as (v & -> & _);
      [split; [now apply Hk | exact Hlt] |].
    cbn. now eexists.
  - exists curve. split; [exact Hc |].
    now apply comprehension_length in Hc.
Qed.

(** The candidate range on [n] points has fewer than two values exactly
    when [n <= 16]. *)
Lemma candidates_fewer_than_two (n : Z) :
  (len (Np.arange HILL_K_MIN (Z.min (n - 10) 150)) < 2)%Z <-> (n <= 16)%Z.
Proof. rewrite len_arange. unfold HILL_K_MIN. lia. Qed.

(** The scale fit is reached with 17 exceedances or more only. *)
Lemma fit_inputs_need_17 (data : list float) (threshold : float)
    (exceed : list float) (shape : float) :
  Stages.fit_inputs data threshold = Ok (Some (exceed, shape)) ->
  (17 <= len (exceedances data threshold))%Z.
Proof.
  unfold Stages.fit_inputs.
  set (n := len (exceedances data threshold)).
  destruct (n <? MIN_EXCEEDANCES)%Z; [discriminate |].
  destruct (len (Np.arange HILL_K_MIN (Z.min (n - 10) 150)) <? 2)%Z
    eqn:Hlt; [discriminate |].
  intros _. apply Z.ltb_ge in Hlt.
  destruct (Z.le_gt_cases n 16) as [Hle | Hgt]; [| lia].
  apply candidates_fewer_than_two in Hle. lia.
Qed.

Hypothesis Hfilter : filter_keeps_length.

Lemma hill_estimator_returns (data : list float) (k_vals : list Z) :
  (forall k, In k k_vals -> (0 <= k)%Z) ->
  exists smoothed,
    hill_estimator data k_vals = Ok smoothed /\
    length smoothed = length k_vals.
Proof.
  intros Hk. rewrite hill_estimator_smooths_raw.
  destruct (raw_hill_returns data k_vals Hk) as (raw & -> & Hlen).
  cbn. eexists. split; [reflexivity |]. now rewrite Hfilter.
Qed.

Lemma select_k_returns (smoothed : list float) (k_vals : list Z) :
  (2 <= length smoothed)%nat -> length smoothed = length k_vals ->
  exists k, select_k smoothed k_vals = Ok k /\ In k k_vals.
Proof.
  intros H2 Hlen. unfold select_k.
  destruct (gradient_returns smoothed H2) as (g & -> & Hg). cbn.
  set (s := gaussian_filter1d (Np.abs g) SELECT_K_SIGMA).
  assert (Hs : length s = length k_vals).
  { unfold s. rewrite Hfilter. unfold Np.abs. rewrite length_map. lia. }
  destruct (argmin_returns s) as (i & -> & Hi).
  { intros ->. cbn in Hs. lia. }
  cbn.
  destruct (getitem_inside k_vals i) as (k & Hget & _).
  { unfold len in *. lia. }
  exists k. split; [exact Hget | eapply getitem_In, Hget].
Qed.

Lemma estimate_hill_shape_returns (data : list float) (k : Z) :
  (0 < k < len data)%Z -> exists xi, estimate_hill_shape data k = Ok xi.
Proof.
  intros Hk. unfold estimate_hill_shape. rewrite len_sorted_desc.
  destruct (len data <=? k)%Z eqn:H1; [apply Z.leb_le in H1; lia |].
  destruct (k <=? 0)%Z eqn:H2; [apply Z.leb_le in H2; lia |].
  cbn.
  destruct (getitem_inside (Np.flip (Np.sort data)) k) as (v & -> & _);
    [rewrite len_sorted_desc; lia |].
  cbn. now eexists.
Qed.

(** The candidate range [arange(5, min(n - 10, 150))]. *)
Lemma candidates_bounds (n k : Z) :
  In k (Np.arange HILL_K_MIN (Z.min (n - 10) 150)) ->
  (5 <= k < n - 10)%Z.
Proof. intros Hin. apply In_arange in Hin. unfold HILL_K_MIN in Hin. lia. Qed.

(** Selection on the candidate range of a series returns one of the
    candidates. *)
Lemma selection_returns (data : list float) :
  let k_vals := Np.arange HILL_K_MIN (Z.min (len data - 10) 150) in
  (2 <= len k_vals)%Z ->
  exists smoothed k,
    hill_estimator data k_vals = Ok smoothed /\
    select_k smoothed k_vals = Ok k /\
    (5 <= k < len data - 10)%Z.
Proof.
  intros k_vals H2.
  destruct (hill_estimator_returns data k_vals) as (smoothed & Hs & Hlen).
  { intros k Hin. apply candidates_bounds in Hin. lia. }
  destruct (select_k_returns smoothed k_vals) as (k & Hk & Hin).
  { unfold len in H2. lia. }
  { exact Hlen. }
  exists smoothed, k. repeat split; try assumption;
    apply candidates_bounds in Hin; lia.
Qed.

(** With a length-preserving filter, [compute_gpd_risks_mle] raises on
    no input. *)
Lemma compute_gpd_risks_mle_returns (data : list float)
    (threshold alpha : float) :
  exists risks, compute_gpd_risks_mle data threshold alpha = Ok risks.
Proof.
  unfold compute_gpd_risks_mle.
  set (exceed := exceedances data threshold).
  destruct (len exceed <? MIN_EXCEEDANCES)%Z; [now eexists |].
  destruct (len (Np.arange HILL_K_MIN (Z.min (len exceed - 10) 150)) <? 2)%Z
    eqn:H2; [now eexists |].
  apply Z.ltb_ge in H2.
  destruct (selection_returns exceed H2) as (smoothed & k & -> & Hk & Hb).
  cbn. rewrite Hk. cbn.
  destruct (estimate_hill_shape_returns exceed k) as (xi & ->); [lia |].
  cbn. destruct (fit_gpd_mle_fixed_shape exceed xi); [| now eexists].
  destruct (var_es threshold xi f alpha). now eexists.
Qed.

(** A ticker is skipped exactly when it has fewer than 30 losses; with 30
    or more its record is built. *)
Lemma ticker_record_cases (metadata : list MetaRow)
    (ticker : String.string) (df : DataFrame) :
  let losses := loss_series (daily_returns df) in
  ((len losses < LOSS_THRESHOLD)%Z ->
     ticker_record metadata ticker df = Ok None) /\
  ((LOSS_THRESHOLD <= len losses)%Z ->
     exists r, ticker_record metadata ticker df = Ok (Some r) /\
               Ticker r = ticker).
Proof.
  intros losses. unfold ticker_record. fold losses. split; intros Hn.
  - apply Z.ltb_lt in Hn. now rewrite Hn.
  - unfold LOSS_THRESHOLD in *.
    destruct (len losses <? 30)%Z eqn:H30; [apply Z.ltb_lt in H30; lia |].
    assert (H2 : (2 <= len (Np.arange HILL_K_MIN
                               (Z.min (len losses - 10) 150)))%Z).
    { rewrite len_arange. unfold HILL_K_MIN. lia. }
    destruct (len (Np.arange HILL_K_MIN (Z.min (len losses - 10) 150)) <? 2)%Z
      eqn:Hlt; [apply Z.ltb_lt in Hlt; lia |].
    destruct (selection_returns losses H2) as (smoothed & k & -> & Hk & Hb).
    cbn. rewrite Hk. cbn.
    destruct (getitem_inside (Np.flip (Np.sort losses)) k)
      as (t & -> & _); [rewrite len_sorted_desc; lia |].
    cbn.
    destruct (compute_gpd_risks_mle_returns losses t GPD_ALPHA)
      as (risks & ->).
    cbn. eexists. split; reflexivity.
Qed.

End WithLib.
End PipelineFacts.

(** ** Ranks and the cast to nullable integers *)

Module RankFacts.

Import GenerateData ArrayFacts.

Lemma length_rank (ascending : bool) (col : list (option float)) :
  length (Pd.rank ascending col) = length col.
Proof. unfold Pd.rank. apply length_map. Qed.

(** A cast that returns has halved every doubled rank, all of them even. *)
Lemma astype_Int64_returns (twice : list Z) (ranks : list (option Z)) :
  Pd.astype_Int64 twice = Ok ranks ->
  ranks = map (fun t => Some (t / 2)%Z) twice /\
  Forall (fun t => Z.even t = true) twice.
Proof.
  unfold Pd.astype_Int64. revert ranks.
  induction twice as [| t twice IH]; intros ranks; cbn.
  - intros [= <-]. now split.
  - destruct (Z.even t) eqn:Ht; cbn; [| discriminate].
    destruct (comprehension _ twice) as [rs |]; cbn; [| discriminate].
    intros [= <-]. destruct (IH rs eq_refl) as [-> Hall].
    split; [reflexivity | now constructor].
Qed.

(** The only exception of the cast is [TypeError]. *)
Lemma astype_Int64_raises_TypeError (twice : list Z) (e : exn) :
  Pd.astype_Int64 twice = Raise e -> e = TypeError.
Proof.
  unfold Pd.astype_Int64. induction twice as [| t twice IH]; cbn.
  - discriminate.
  - destruct (Z.even t); cbn; [| now intros [= <-]].
    destruct (comprehension _ twice) as [rs |]; cbn; [discriminate |].
    intros [= <-]. now apply IH.
Qed.

(** One rank that is not a whole number makes the cast raise. *)
Lemma astype_Int64_odd (twice : list Z) (t : Z) :
  In t twice -> Z.even t = false -> Pd.astype_Int64 twice = Raise TypeError.
Proof.
  intros Hin Ht.
  destruct (Pd.astype_Int64 twice) as [ranks | e] eqn:Hcast.
  - apply astype_Int64_returns in Hcast. destruct Hcast as [_ Hall].
    rewrite Forall_forall in Hall. specialize (Hall t Hin). congruence.
  - f_equal. eapply astype_Int64_raises_TypeError, Hcast.
Qed.

(** The columns of the table built from the records and three rank
    columns of the same length. *)
Lemma rows_columns (records : list RiskRecord) (a v e : list (option Z)) :
  length a = length records -> length v = length records ->
  length e = length records ->
  let rows :=
    map (fun '(r, a, v, e) =>
           {| record := r; Average_Return_Rank := a;
              VaR_Rank := v; ES_Rank := e |})
        (combine (combine (combine records a) v) e) in
  map record rows = records /\
  map Average_Return_Rank rows = a /\
  map VaR_Rank rows = v /\
  map ES_Rank rows = e.
Proof.
  revert a v e. induction records as [| r records IH];
    intros [| a0 a] [| v0 v] [| e0 e]; cbn; try discriminate;
    intros Ha Hv He; [now repeat split |].
  injection Ha as Ha. injection Hv as Hv. injection He as He.
  destruct (IH a v e Ha Hv He) as (H1 & H2 & H3 & H4).
  repeat split; f_equal; assumption.
Qed.

(** What [add_ranks] returns, column by column. *)
Lemma add_ranks_columns (records : list RiskRecord) (rows : list SummaryRow) :
  add_ranks records = Ok rows ->
  map record rows = records /\
  map Average_Return_Rank rows
  = map (fun t => Some (t / 2)%Z)
        (Pd.rank true (map (fun r => Some (Average_Return r)) records)) /\
  map VaR_Rank rows
  = map (fun t => Some (t / 2)%Z) (Pd.rank false (map VaR records)) /\
  map ES_Rank rows
  = map (fun t => Some (t / 2)%Z) (Pd.rank false (map ES records)).
Proof.
  unfold add_ranks.
  destruct (Pd.astype_Int64 (Pd.rank true _)) as [a |] eqn:Ha; cbn;
    [| discriminate].
  destruct (Pd.astype_Int64 (Pd.rank false (map VaR records))) as [v |] eqn:Hv;
    cbn; [| discriminate].
  destruct (Pd.astype_Int64 (Pd.rank false (map ES records))) as [e |] eqn:He;
    cbn; [| discriminate].
  intros [= <-].
  pose proof (comprehension_length _ _ _ Ha) as La.
  pose proof (comprehension_length _ _ _ Hv) as Lv.
  pose proof (comprehension_length _ _ _ He) as Le.
  rewrite length_rank, length_map in La, Lv, Le.
  destruct (rows_columns records a v e La Lv Le) as (H1 & H2 & H3 & H4).
  apply astype_Int64_returns in Ha, Hv, He.
  destruct Ha as [Ha _], Hv as [Hv _], He as [He _].
  repeat split; congruence.
Qed.

Lemma count_map {A B} (col : A -> B) (p : B -> bool) (l : list A) :
  Pd.count p (map col l) = Pd.count (fun w => p (col w)) l.
Proof.
  unfold Pd.count, len. f_equal.
  induction l as [| w l IH]; cbn; [reflexivity |].
  destruct (p (col w)); cbn; now rewrite IH.
Qed.

Lemma half_of_doubled_rank (b t : Z) :
  ((2 * b + t + 1) / 2 = b + (t + 1) / 2)%Z.
Proof.
  replace (2 * b + t + 1)%Z with (b * 2 + (t + 1))%Z by lia.
  now rewrite Z.div_add_l.
Qed.

(** The doubled rank of the cell at a position of the column. *)
Lemma rank_at (ascending : bool) (col : list (option float)) (i : nat)
    (v : option float) :
  nth_error col i = Some v ->
  nth_error (Pd.rank ascending col) i =
  Some (if Pd.isna v
        then (2 * Pd.count (fun w => negb (Pd.isna w)) col
              + Pd.count Pd.isna col + 1)%Z
        else (2 * Pd.count (Pd.before ascending v) col
              + Pd.count (Pd.tied v) col + 1)%Z).
Proof.
  intros Hnth. unfold Pd.rank. rewrite nth_error_map, Hnth. reflexivity.
Qed.

End RankFacts.

(** ** The running instance meets the contracts *)

Module SoftFacts.

Lemma gaussian_keeps_length : @filter_keeps_length Soft.lib.
Proof.
  intros input sigma. cbn [gaussian_filter1d Soft.lib].
  unfold Soft.gaussian, Np.arange, len.
  rewrite !length_map, length_seq. lia.
Qed.

Lemma search_respects_bounds : @minimize_respects_bounds Soft.lib.
Proof.
  intros f guess lo hi. cbn [minimize Soft.lib]. unfold Soft.search.
  cbn [success x0]. intros Hs. repeat (apply andb_prop in Hs; destruct Hs as [Hs ?]).
  now repeat split.
Qed.

End SoftFacts.

(** ** The claims *)

Section Claims.

Import GenerateData Stages Samples ArrayFacts PipelineFacts RankFacts.
Open Scope float_scope.

(** C3: [compute_gpd_risks_mle] returns (None, None) whenever at most 16
    losses lie strictly above the threshold, although the stated minimum
    is 5: the candidate range [arange(5, min(n - 10, 150))] on the [n]
    exceedances has fewer than 2 values exactly when [n <= 16], and the
    scale fit is reached only with 17 exceedances or more. *)
Theorem no_fit_below_17_exceedances `{NumericLib}
    (data : list float) (threshold alpha : float) :
  let n := len (exceedances data threshold) in
  ((len (Np.arange HILL_K_MIN (Z.min (n - 10) 150)) < 2)%Z <-> (n <= 16)%Z) /\
  ((n <= 16)%Z ->
     compute_gpd_risks_mle data threshold alpha = Ok (None, None)) /\
  (forall exceed shape,
     fit_inputs data threshold = Ok (Some (exceed, shape)) -> (17 <= n)%Z).
Proof.
  intros n. split; [apply candidates_fewer_than_two |]. split.
  - intros Hn. unfold compute_gpd_risks_mle. fold n.
    destruct (n <? MIN_EXCEEDANCES)%Z; [reflexivity |].
    apply candidates_fewer_than_two, Z.ltb_lt in Hn. now rewrite Hn.
  - intros exceed shape. apply fit_inputs_need_17.
Qed.

Lemma no_fit_with_ten_exceedances :
  len (exceedances ten_losses 0) = 10%Z /\
  compute_gpd_risks_mle (H := Soft.lib) ten_losses 0 GPD_ALPHA
  = Ok (None, None).
Proof.
  split; [reflexivity |].
  apply (@no_fit_below_17_exceedances Soft.lib ten_losses 0 GPD_ALPHA).
  vm_compute. discriminate.
Defined.

(** C9: at every candidate scale [<= 0] the negative log-likelihood is
    [+inf], whatever the data and the shape; the objective raises on no
    input; and at a scale above zero on which the library's log-density
    returns, the value is the negated sum of the log-densities, not the
    cost of the error branch. *)
Theorem objective_infinite_at_nonpositive_scale `{NumericLib}
    (scale : float) (data : list float) (shape : float) :
  ((scale <=? 0) = true ->
     gpd_log_likelihood_fixed_shape scale data shape = Ok infinity) /\
  (exists cost, gpd_log_likelihood_fixed_shape scale data shape = Ok cost) /\
  ((0 <? scale) = true ->
     forall lp, genpareto_logpdf data shape 0 scale = Ok lp ->
     gpd_log_likelihood_fixed_shape scale data shape = Ok (- Np.sum lp)).
Proof.
  unfold gpd_log_likelihood_fixed_shape. repeat split.
  - now intros ->.
  - destruct (scale <=? 0); [now eexists |].
    destruct (genpareto_logpdf data shape 0 scale); cbn; now eexists.
  - intros Hpos lp Hlp.
    assert (Hle : (scale <=? 0) = false).
    { revert Hpos. FloatFacts.to_spec.
      change (Prim2SF 0) with (S754_zero false).
      FloatFacts.by_cases scale. }
    now rewrite Hle, Hlp.
Qed.

Lemma objective_at_minus_one :
  gpd_log_likelihood_fixed_shape (H := Soft.lib) (-1) ten_losses 0.5
  = Ok infinity.
Proof.
  apply (@objective_infinite_at_nonpositive_scale
           Soft.lib (-1) ten_losses 0.5).
  reflexivity.
Defined.

(** C6: the scale fitter returns None exactly when the sample has fewer
    than 5 elements or the bounded minimizer reports failure; otherwise
    it returns the minimizer's point, which is finite and above zero when
    the minimizer keeps to the bounds it is given. *)
Theorem fit_none_or_positive_scale `{NumericLib}
    (Hbounds : minimize_respects_bounds)
    (data : list float) (shape : float) :
  let attempt :=
    minimize (fun scale => gpd_log_likelihood_fixed_shape scale data shape)
             (Np.std data) (1e-6, infinity) in
  (fit_gpd_mle_fixed_shape data shape = None <->
     (len data < MIN_EXCEEDANCES)%Z \/ success attempt = false) /\
  (forall scale,
     fit_gpd_mle_fixed_shape data shape = Some scale ->
     (0 <? scale) = true /\ is_finite scale = true).
Proof.
  intros attempt. unfold fit_gpd_mle_fixed_shape. fold attempt.
  destruct (len data <? MIN_EXCEEDANCES)%Z eqn:Hlen.
  - apply Z.ltb_lt in Hlen. split; [tauto | discriminate].
  - apply Z.ltb_ge in Hlen.
    destruct (success attempt) eqn:Hs.
    + split.
      * split; [discriminate | intros [? | ?]; [lia | discriminate]].
      * intros scale [= <-].
        destruct (Hbounds _ _ _ _ Hs) as (Hlo & _ & Hfin).
        split; [now apply FloatFacts.above_bound_positive | exact Hfin].
    + split; [tauto | discriminate].
Qed.

Lemma fit_of_ten_losses :
  exists scale,
    fit_gpd_mle_fixed_shape (H := Soft.lib) ten_losses 0.5 = Some scale /\
    (0 <? scale) = true /\ is_finite scale = true.
Proof.
  assert (Hfit : { scale | fit_gpd_mle_fixed_shape (H := Soft.lib)
                             ten_losses 0.5 = Some scale })
    by (eexists; vm_compute; reflexivity).
  destruct Hfit as [scale Hfit]. exists scale. split; [exact Hfit |].
  exact (proj2 (@fit_none_or_positive_scale
                  Soft.lib SoftFacts.search_respects_bounds ten_losses 0.5)
               scale Hfit).
Defined.

(** C10: the loss series holds exactly the strictly negative daily
    percentage returns [(close - open) / open * 100], each with its sign
    flipped, so every loss is above zero; and a ticker is excluded (it
    contributes no record) exactly when it has fewer than 30 losses. *)
Theorem losses_positive_and_skipped_below_30 `{NumericLib}
    (Hfilter : filter_keeps_length)
    (metadata : list MetaRow) (ticker : String.string) (df : DataFrame)
    (rest : PriceData) :
  let daily_ret := map (fun b => (Close b - Open b) / Open b * 100) df in
  let losses := loss_series (daily_returns df) in
  losses = map PrimFloat.opp (filter (fun r => r <? 0) daily_ret) /\
  (forall v, In v losses -> (0 <? v) = true) /\
  (ticker_record metadata ticker df = Ok None <-> (len losses < 30)%Z) /\
  ((len losses < 30)%Z ->
     collect_records metadata ((ticker, df) :: rest)
     = collect_records metadata rest) /\
  ((30 <= len losses)%Z ->
     exists r, Ticker r = ticker /\
       collect_records metadata ((ticker, df) :: rest)
       = r :: collect_records metadata rest).
Proof.
  intros daily_ret losses.
  assert (Hlosses : losses
                    = map PrimFloat.opp (filter (fun r => r <? 0) daily_ret)).
  { unfold losses, loss_series, daily_returns. fold daily_ret.
    now rewrite negative_returns_have_no_nan. }
  destruct (ticker_record_cases Hfilter metadata ticker df) as [Hskip Hkeep].
  fold losses in Hskip, Hkeep. unfold LOSS_THRESHOLD in *.
  split; [exact Hlosses |]. split; [| split; [| split]].
  - intros v Hv. rewrite Hlosses in Hv. apply in_map_iff in Hv.
    destruct Hv as (r & <- & Hr). apply filter_In in Hr.
    now apply FloatFacts.opp_negative_positive.
  - split; [| exact Hskip].
    intros Hnone. destruct (Z.lt_ge_cases (len losses) 30) as [| Hge];
      [assumption |].
    destruct (Hkeep Hge) as (r & Hr & _). congruence.
  - intros Hlt. cbn. now rewrite (Hskip Hlt).
  - intros Hge. destruct (Hkeep Hge) as (r & Hr & Ht).
    exists r. split; [exact Ht |]. cbn. now rewrite Hr.
Qed.

Lemma steady_ticker_of_29_days_is_skipped :
  ticker_record (H := Soft.lib) [] "A"%string (steady 29 99) = Ok None.
Proof.
  apply (@losses_positive_and_skipped_below_30
           Soft.lib SoftFacts.gaussian_keeps_length
           [] "A"%string (steady 29 99) []).
  vm_compute. reflexivity.
Defined.







(** C2, as the code has it: the shape held fixed in the scale fit is the
    Hill estimate of the EXCEEDANCES (losses strictly above the threshold,
    minus the threshold) at an order statistic selected anew on the
    exceedances' own smoothed Hill curve over [arange(5, min(n - 10, 150))];
    that one shape goes to the scale fit and to the VaR / ES formulas, the
    fit minimizes over the scale alone, and nothing is carried over from
    the selection on the loss series but the threshold. *)
Theorem shape_is_hill_estimate_of_exceedances `{NumericLib}
    (data : list float) (threshold alpha : float) :
  compute_gpd_risks_mle data threshold alpha =
    (inputs <- fit_inputs data threshold ;;
     match inputs with
     | Some (exceed, shape) =>
         match fit_gpd_mle_fixed_shape exceed shape with
         | Some scale =>
             Ok (Some (fst (var_es threshold shape scale alpha)),
                 Some (snd (var_es threshold shape scale alpha)))
         | None => Ok (None, None)
         end
     | None => Ok (None, None)
     end) /\
  (forall exceed shape,
     fit_inputs data threshold = Ok (Some (exceed, shape)) ->
     exceed = exceedances data threshold /\
     (17 <= len exceed)%Z /\
     let k_vals := Np.arange HILL_K_MIN (Z.min (len exceed - 10) 150) in
     exists smoothed k,
       hill_estimator exceed k_vals = Ok smoothed /\
       select_k smoothed k_vals = Ok k /\
       estimate_hill_shape exceed k = Ok shape) /\
  (forall exceed shape,
     (MIN_EXCEEDANCES <= len exceed)%Z ->
     fit_gpd_mle_fixed_shape exceed shape =
     let attempt :=
       minimize (fun scale => gpd_log_likelihood_fixed_shape scale exceed shape)
                (Np.std exceed) (1e-6, infinity) in
     if success attempt then Some (x0 attempt) else None).
Proof.
  split; [| split].
  - unfold compute_gpd_risks_mle, fit_inputs.
    destruct (len (exceedances data threshold) <? MIN_EXCEEDANCES)%Z;
      [reflexivity |].
    destruct (len (Np.arange _ _) <? 2)%Z; [reflexivity |].
    destruct (hill_estimator _ _) as [smoothed |]; cbn; [| reflexivity].
    destruct (select_k smoothed _) as [k |]; cbn; [| reflexivity].
    destruct (estimate_hill_shape _ k) as [shape |]; cbn; [| reflexivity].
    destruct (fit_gpd_mle_fixed_shape _ shape) as [scale |]; [| reflexivity].
    now destruct (var_es threshold shape scale alpha).
  - intros exceed shape Hfit.
    pose proof (fit_inputs_need_17 _ _ _ _ Hfit) as H17.
    revert Hfit. unfold fit_inputs.
    destruct (len (exceedances data threshold) <? MIN_EXCEEDANCES)%Z;
      [discriminate |].
    destruct (len (Np.arange _ _) <? 2)%Z; [discriminate |].
    destruct (hill_estimator _ _) as [smoothed |] eqn:Hs; cbn;
      [| discriminate].
    destruct (select_k smoothed _) as [k |] eqn:Hk; cbn; [| discriminate].
    destruct (estimate_hill_shape _ k) as [xi |] eqn:Hxi; cbn;
      [| discriminate].
    intros [= <- <-]. split; [reflexivity |]. split; [exact H17 |].
    exists smoothed, k. now repeat split.
  - intros exceed shape Hlen. unfold fit_gpd_mle_fixed_shape.
    destruct (len exceed <? MIN_EXCEEDANCES)%Z eqn:Hlt; [| reflexivity].
    apply Z.ltb_lt in Hlt. lia.
Qed.

Lemma shape_fitted_on_48_losses :
  exists exceed shape,
    fit_inputs (H := Soft.lib) losses48 threshold48
    = Ok (Some (exceed, shape)) /\
    exceed = exceedances losses48 threshold48 /\
    (17 <= len exceed)%Z.
Proof.
  assert (Hfit : { p | fit_inputs (H := Soft.lib) losses48 threshold48
                       = Ok (Some p) })
    by (eexists; vm_compute; reflexivity).
  destruct Hfit as [[exceed shape] Hfit]. exists exceed, shape.
  split; [exact Hfit |].
  destruct (proj1 (proj2 (@shape_is_hill_estimate_of_exceedances
                            Soft.lib losses48 threshold48 GPD_ALPHA))
                  exceed shape Hfit) as (Hex & H17 & _).
  now split.
Defined.

(** C2 fails as stated: on the 48 sample losses the Hill estimate that
    threshold selection attaches to the loss series at [k* = 37] is below
    the shape handed to the scale fit. *)
Lemma fitted_shape_is_not_hill_shape_of_losses :
  exists threshold exceed shape xi,
    threshold_selection (H := Soft.lib) losses48 = Ok (37%Z, threshold) /\
    fit_inputs (H := Soft.lib) losses48 threshold
    = Ok (Some (exceed, shape)) /\
    estimate_hill_shape (H := Soft.lib) losses48 37 = Ok xi /\
    (xi <? shape) = true.
Proof.
  do 4 eexists. split; [vm_compute; reflexivity |].
  split; [vm_compute; reflexivity |].
  split; [vm_compute; reflexivity | reflexivity].
Qed.

(** C7, as the code has it: [Average_Return_Rank] is ascending (a present
    value is ranked after the values below it, rank 1 = smallest) and
    [VaR_Rank], [ES_Rank] are descending (ranked after the values above it,
    rank 1 = largest), a tie group sharing the mean of its positions; for
    the three records with Average_Return = [1, 3, 2], VaR = [5, 2, 8],
    ES = [4, 1, 9] the ranks are [1, 3, 2], [2, 3, 1] and [2, 3, 1]. *)
Theorem ranks_ascending_return_descending_risk :
  (forall records rows,
     add_ranks records = Ok rows ->
     map record rows = records /\
     forall i row, nth_error rows i = Some row ->
       let r := record row in
       let avg (w : RiskRecord) := Some (Average_Return w) in
       let ahead asc (col : RiskRecord -> option float) :=
         Pd.count (fun w => Pd.before asc (col r) (col w)) records in
       let level (col : RiskRecord -> option float) :=
         Pd.count (fun w => Pd.tied (col r) (col w)) records in
       (Pd.isna (avg r) = false ->
          Average_Return_Rank row
          = Some (ahead true avg + (level avg + 1) / 2)%Z) /\
       (Pd.isna (VaR r) = false ->
          VaR_Rank row = Some (ahead false VaR + (level VaR + 1) / 2)%Z) /\
       (Pd.isna (ES r) = false ->
          ES_Rank row = Some (ahead false ES + (level ES + 1) / 2)%Z)) /\
  (forall a b, Pd.before true (Some a) (Some b) = true -> (b <? a) = true) /\
  (forall a b, Pd.before false (Some a) (Some b) = true -> (a <? b) = true) /\
  (exists rows,
     add_ranks ranking_example = Ok rows /\
     map Average_Return_Rank rows = [Some 1; Some 3; Some 2]%Z /\
     map VaR_Rank rows = [Some 2; Some 3; Some 1]%Z /\
     map ES_Rank rows = [Some 2; Some 3; Some 1]%Z).
Proof.
  split; [| split; [| split]].
  - intros records rows Hranks.
    destruct (add_ranks_columns records rows Hranks)
      as (Hrec & Havg & Hvar & Hes).
    split; [exact Hrec |].
    intros i row Hrow r avg ahead level.
    assert (Hr : nth_error records i = Some r).
    { rewrite <- Hrec, nth_error_map, Hrow. reflexivity. }
    assert (Hcell : forall (proj : SummaryRow -> option Z) asc
                           (col : RiskRecord -> option float),
               map proj rows
               = map (fun t => Some (t / 2)%Z)
                     (Pd.rank asc (map col records)) ->
               Pd.isna (col r) = false ->
               proj row = Some (ahead asc col + (level col + 1) / 2)%Z).
    { intros proj asc col Hcol Hna.
      assert (Hp : nth_error (map proj rows) i = Some (proj row))
        by (rewrite nth_error_map, Hrow; reflexivity).
      rewrite Hcol, nth_error_map in Hp.
      rewrite (rank_at asc (map col records) i (col r)) in Hp
        by (rewrite nth_error_map, Hr; reflexivity).
      rewrite Hna in Hp. cbv [option_map] in Hp.
      rewrite !count_map, half_of_doubled_rank in Hp.
      unfold ahead, level. congruence. }
    repeat split; intros Hna.
    + exact (Hcell Average_Return_Rank true avg Havg Hna).
    + exact (Hcell VaR_Rank false VaR Hvar Hna).
    + exact (Hcell ES_Rank false ES Hes Hna).
  - intros a b Hb. cbn in Hb. now apply andb_prop in Hb.
  - intros a b Hb. cbn in Hb. now apply andb_prop in Hb.
  - eexists. split; [vm_compute; reflexivity |]. now repeat split.
Qed.

Lemma ranks_of_the_three_records :
  exists rows,
    add_ranks ranking_example = Ok rows /\
    map record rows = ranking_example.
Proof.
  assert (Hrows : { rows | add_ranks ranking_example = Ok rows })
    by (eexists; vm_compute; reflexivity).
  destruct Hrows as [rows Hrows]. exists rows. split; [exact Hrows |].
  exact (proj1 (proj1 ranks_ascending_return_descending_risk
                  ranking_example rows Hrows)).
Defined.

(** C7 fails as stated: the descending ES ranks of [4, 1, 9] are
    [2, 3, 1], not [2, 1, 3]. *)
Lemma es_rank_of_the_three_records :
  exists rows,
    add_ranks ranking_example = Ok rows /\
    map ES_Rank rows = [Some 2; Some 3; Some 1]%Z /\
    map ES_Rank rows <> [Some 2; Some 1; Some 3]%Z.
Proof.
  eexists. split; [vm_compute; reflexivity |].
  split; [reflexivity | discriminate].
Qed.

(** C8 on the code: when the number of records with a missing VaR is
    even and not zero (two failed fits, say), the missing cells share a
    rank that is not a whole number, the cast to [Int64] raises
    [TypeError], and [compute_risks] returns no table at all. *)
Theorem ranking_raises_on_two_failed_fits (records : list RiskRecord) :
  (0 < Pd.count Pd.isna (map VaR records))%Z ->
  Z.even (Pd.count Pd.isna (map VaR records)) = true ->
  add_ranks records = Raise TypeError.
Proof.
  intros Hpos Heven.
  set (col := map VaR records) in *.
  assert (Hcell : exists v, In v col /\ Pd.isna v = true).
  { unfold Pd.count, len in Hpos.
    destruct (filter Pd.isna col) as [| v rest] eqn:Hf; [cbn in Hpos; lia |].
    exists v. apply filter_In. rewrite Hf. now left. }
  destruct Hcell as (v & Hin & Hna).
  assert (Hcast : Pd.astype_Int64 (Pd.rank false col) = Raise TypeError).
  { apply astype_Int64_odd
      with (t := (2 * Pd.count (fun w => negb (Pd.isna w)) col
                  + Pd.count Pd.isna col + 1)%Z).
    - unfold Pd.rank. apply in_map_iff. exists v.
      split; [now rewrite Hna | exact Hin].
    - rewrite !Z.even_add, Z.even_mul, Heven. reflexivity. }
  unfold add_ranks. fold col.
  destruct (Pd.astype_Int64 (Pd.rank true _)) as [a | e] eqn:Ha; cbn.
  - now rewrite Hcast.
  - f_equal. eapply astype_Int64_raises_TypeError, Ha.
Qed.

Lemma ranking_of_two_failed_fits :
  add_ranks two_failed_fits = Raise TypeError.
Proof.
  apply (ranking_raises_on_two_failed_fits two_failed_fits);
    vm_compute; reflexivity.
Defined.

(** Two tickers whose losses are all equal have no loss strictly above
    the threshold, so both fits fail, and the batch ends in [TypeError]. *)
Lemma two_steady_tickers_abort_the_batch :
  compute_risks (H := Soft.lib)
    [("A"%string, steady 30 99); ("B"%string, steady 30 98)] []
  = Raise TypeError.
Proof. vm_compute. reflexivity. Qed.

(** With a single failed fit the row is kept and ranked last. *)
Lemma one_failed_fit_is_ranked_last :
  exists rows,
    add_ranks [rec3 (-1) (Some 3) (Some 4); rec3 (-2) None None] = Ok rows /\
    map VaR_Rank rows = [Some 1; Some 2]%Z /\
    map ES_Rank rows = [Some 1; Some 2]%Z.
Proof. eexists. split; [vm_compute; reflexivity | now split]. Qed.

(** C1 on the code: at shape 2, threshold 1, scale 1 and the default
    confidence level, [compute_gpd_risks_mle]'s formulas return a finite
    ES, below the VaR and below the threshold itself. *)
Theorem es_is_finite_at_shape_two :
  exists var es,
    var_es (H := Soft.lib) 1 2 1 GPD_ALPHA = (var, es) /\
    (1 <=? 2) = true /\
    is_finite es = true /\
    (es <? var) = true /\ (es <? 1) = true.
Proof.
  do 2 eexists. split; [vm_compute; reflexivity |]. now repeat split.
Qed.

(** The sibling [estimate_var_es_gpd] does report an infinite ES from
    shape 1 on. *)
Lemma sibling_reports_infinite_es `{NumericLib}
    (genpareto_fit : list float -> float * float * float)
    (data : list float) (threshold confidence_level : float)
    (var es shape scale : float) :
  SmoothedHill.estimate_var_es_gpd genpareto_fit data threshold
    confidence_level = Ok (var, es, shape, scale) ->
  (1 <=? shape) = true -> es = infinity.
Proof.
  unfold SmoothedHill.estimate_var_es_gpd.
  destruct (len _ <? 2)%Z; [discriminate |].
  destruct (genpareto_fit _) as [[sh loc] sc].
  intros [= _ <- <- _] Hshape. now rewrite Hshape.
Qed.

(** The same on a whole call: on the heavy-tailed sample the Hill shape
    of the exceedances is above 1 and the function returns a finite ES
    below its VaR. *)
Lemma es_is_finite_on_heavy_losses :
  exists exceed shape var es,
    fit_inputs (H := Soft.lib) heavy48 heavy_threshold
    = Ok (Some (exceed, shape)) /\
    (1 <=? shape) = true /\
    compute_gpd_risks_mle (H := Soft.lib) heavy48 heavy_threshold GPD_ALPHA
    = Ok (Some var, Some es) /\
    is_finite es = true /\ (es <? var) = true.
Proof.
  do 4 eexists. split; [vm_compute; reflexivity |].
  split; [reflexivity |]. split; [vm_compute; reflexivity |]. now split.
Qed.

(** An infinite loss makes an entry NaN inside the series as well. *)
Lemma raw_hill_entry_nan_for_infinite_losses :
  exists h,
    SmoothedHill.hill_estimator (H := Soft.lib) [infinity; infinity; 1] [1%Z]
    = Ok [h] /\
    is_nan h = true.
Proof. exists nan. split; [vm_compute; reflexivity | reflexivity]. Qed.

(** The script of [smoothed_Hill_estimator.py] reads its threshold at the
    same zero-based position. *)
Lemma main_threshold_is_order_statistic_k_plus_one `{NumericLib}
    (data : list float) (threshold : float) :
  SmoothedHill.main_threshold data = Ok threshold ->
  exists k, (5 <= k)%Z /\ kth_largest data (k + 1) = Ok threshold.
Proof.
  unfold SmoothedHill.main_threshold, SmoothedHill.smoothed_hill_estimator.
  destruct (SmoothedHill.hill_estimator data _) as [raw |]; cbn;
    [| discriminate].
  destruct (SmoothedHill.select_optimal_k _ _ _) as [k |] eqn:Hsel; cbn;
    [| discriminate].
  intros Hget. exists k.
  assert (Hin : In k (Np.arange 5 (Z.min (len data - 10) 200))).
  { unfold SmoothedHill.select_optimal_k in Hsel.
    destruct (Np.gradient _); cbn in Hsel; [| discriminate].
    destruct (Np.argmin _); cbn in Hsel; [| discriminate].
    eapply getitem_In, Hsel. }
  apply In_arange in Hin. split; [lia |].
  unfold kth_largest.
  destruct (k + 1 <? 1)%Z eqn:Hlt; [apply Z.ltb_lt in Hlt; lia |].
  now replace (k + 1 - 1)%Z with k by lia.
Qed.

End Claims.


(* ================================================================== *)
(** * Further properties of the code                                    *)
(* ================================================================== *)

(** ** The order of binary64 numbers *)

Module OrderFacts.

Import Order.
Open Scope float_scope.

Lemma lt_irrefl (a : Z * Z * Z) : ~ lt a a.
Proof. destruct a as [[a1 a2] a3]. unfold lt. lia. Qed.

Lemma lt_trans (a b c : Z * Z * Z) : lt a b -> lt b c -> lt a c.
Proof.
  destruct a as [[a1 a2] a3], b as [[b1 b2] b3], c as [[c1 c2] c3].
  unfold lt. lia.
Qed.



(** The class of a key; only NaN has class 3. *)
Lemma key_class (v : float) :
  exists c e m, key v = (c, e, m) /\ (-2 <= c <= 3)%Z /\
                (c = 3%Z -> e = 0%Z /\ m = 0%Z).
Proof.
  unfold key.
  destruct (Prim2SF v) as [[|] | [|] | | [|] m e];
    do 3 eexists; (split; [reflexivity | split; [lia | intros; lia]]).
Qed.

Lemma key_nan (v : float) : is_nan v = true <-> key v = (3, 0, 0)%Z.
Proof.
  unfold is_nan, key. rewrite eqb_spec.
  destruct (Prim2SF v) as [[|] | [|] | | [|] m e]; cbn;
    try (split; [discriminate | intros [=]]); try (split; reflexivity);
    unfold SFeqb, SFcompare;
    rewrite Z.compare_refl, Pos.compare_cont_refl; cbn;
    (split; [discriminate | intros [=]]).
Qed.

Lemma not_nan_key (v : float) : is_nan v = false <-> key v <> (3, 0, 0)%Z.
Proof. rewrite <- key_nan. destruct (is_nan v); intuition congruence. Qed.

Ltac compare_cases :=
  repeat match goal with
         | |- context [(?e ?= ?e')%Z] => destruct (Z.compare_spec e e')
         | |- context [Pos.compare_cont Eq ?m ?m'] =>
             change (Pos.compare_cont Eq m m') with (Pos.compare m m');
             destruct (Pos.compare_spec m m')
         end; cbn.

Ltac settle :=
  split;
  [ let H := fresh in
    intros H;
    first [ discriminate H
          | split; [first [lia | repeat f_equal; lia]
                   | first [discriminate | reflexivity
                           | let E := fresh in intros E; injection E; lia]] ]
  | let H1 := fresh in
    let H2 := fresh in
    intros [H1 H2];
    first [ reflexivity
          | exfalso; first [lia | now apply H2
                           | injection H1; lia | discriminate H1] ] ].

(** [a < b] on floats is the order of the keys, [b] not being NaN. *)
Lemma ltb_key (a b : float) :
  (a <? b) = true <-> lt (key a) (key b) /\ is_nan b = false.
Proof.
  rewrite not_nan_key. unfold key. rewrite ltb_spec.
  destruct (Prim2SF a) as [[|] | [|] | | [|] m e];
    destruct (Prim2SF b) as [[|] | [|] | | [|] m' e'];
    unfold SFltb, SFcompare, lt; cbn; compare_cases; settle.
Qed.

(** [a == b] on floats is the equality of the keys, NaN apart. *)
Lemma eqb_key (a b : float) :
  (a =? b) = true <-> key a = key b /\ is_nan a = false.
Proof.
  rewrite not_nan_key. unfold key. rewrite eqb_spec.
  destruct (Prim2SF a) as [[|] | [|] | | [|] m e];
    destruct (Prim2SF b) as [[|] | [|] | | [|] m' e'];
    unfold SFeqb, SFcompare; cbn; compare_cases; settle.
Qed.

(** Neither side of a true [a < b] is NaN. *)
Lemma ltb_not_nan (a b : float) :
  (a <? b) = true -> is_nan a = false /\ is_nan b = false.
Proof.
  intros Hlt. apply ltb_key in Hlt. destruct Hlt as [Hlt Hb].
  split; [| exact Hb]. apply not_nan_key. intros Ha. rewrite Ha in Hlt.
  destruct (key_class b) as (c & e & m & Hk & Hc & H3).
  rewrite Hk in Hlt. unfold lt in Hlt.
  destruct Hlt as [? | [<- Hlt]]; [lia |].
  destruct (H3 eq_refl). lia.
Qed.


End OrderFacts.

(** ** Sorting *)

Module SortFacts.

Import Order OrderFacts ArrayFacts.
Open Scope float_scope.










End SortFacts.

(** ** Ranks and the order of the values *)

Module RankOrderFacts.

Import GenerateData Order OrderFacts ArrayFacts RankFacts.
Open Scope float_scope.

Lemma tied_self (v : option float) : Pd.isna v = false -> Pd.tied v v = true.
Proof.
  destruct v as [a |]; cbn; [| discriminate].
  unfold is_nan. now destruct (a =? a).
Qed.

Lemma tied_key (v w : option float) :
  Pd.tied v w = true ->
  exists a b, v = Some a /\ w = Some b /\ key a = key b /\
              is_nan a = false /\ is_nan b = false.
Proof.
  destruct v as [a |], w as [b |]; cbn; try discriminate.
  intros He. apply eqb_key in He. destruct He as [Hk Ha].
  exists a, b. repeat split; try assumption.
  apply not_nan_key. rewrite <- Hk. now apply not_nan_key.
Qed.

(** [w] is ranked before [v] when its key is on the near side. *)
Lemma before_key (ascending : bool) (v w : option float) :
  Pd.before ascending v w = true <->
  exists a b, v = Some a /\ w = Some b /\
              is_nan a = false /\ is_nan b = false /\
              (if ascending then lt (key b) (key a) else lt (key a) (key b)).
Proof.
  destruct v as [a |], w as [b |]; cbn;
    try (split; [discriminate | intros (? & ? & ? & ? & _); discriminate]).
  rewrite !andb_true_iff, !negb_true_iff. split.
  - intros [[Ha Hb] Hlt]. exists a, b. repeat split; try assumption.
    destruct ascending; apply ltb_key in Hlt; tauto.
  - intros (a' & b' & [= <-] & [= <-] & Ha & Hb & Hlt).
    repeat split; try assumption.
    destruct ascending; apply ltb_key; tauto.
Qed.

Lemma before_not_tied (ascending : bool) (v w : option float) :
  Pd.before ascending v w = true -> Pd.tied v w = false.
Proof.
  intros Hb. destruct (Pd.tied v w) eqn:Ht; [| reflexivity].
  apply before_key in Hb. apply tied_key in Ht.
  destruct Hb as (a & b & -> & -> & _ & _ & Hlt).
  destruct Ht as (a' & b' & [= <-] & [= <-] & Hk & _).
  rewrite Hk in Hlt. destruct ascending; now apply lt_irrefl in Hlt.
Qed.

Lemma before_present (ascending : bool) (v w : option float) :
  Pd.before ascending v w = true -> Pd.isna w = false.
Proof.
  intros Hb. apply before_key in Hb.
  now destruct Hb as (a & b & -> & -> & _ & Hb & _).
Qed.

Lemma tied_present (v w : option float) :
  Pd.tied v w = true -> Pd.isna w = false.
Proof.
  intros Ht. apply tied_key in Ht.
  now destruct Ht as (a & b & -> & -> & _ & _ & Hb).
Qed.

(** Who is before [w], or tied with [w], is before whatever [w] is
    before. *)
Lemma before_trans (ascending : bool) (u w v : option float) :
  Pd.before ascending v w = true ->
  Pd.before ascending w u = true \/ Pd.tied w u = true ->
  Pd.before ascending v u = true.
Proof.
  intros Hvw Hwu. apply before_key in Hvw.
  destruct Hvw as (a & b & -> & -> & Ha & Hb & Hlt).
  apply before_key. destruct Hwu as [Hwu | Hwu].
  - apply before_key in Hwu.
    destruct Hwu as (b' & c & [= <-] & -> & _ & Hc & Hlt').
    exists a, c. repeat split; try assumption.
    destruct ascending; eapply lt_trans; eassumption.
  - apply tied_key in Hwu.
    destruct Hwu as (b' & c & [= <-] & -> & Hk & _ & Hc).
    exists a, c. repeat split; try assumption. now rewrite <- Hk.
Qed.

Lemma count_nonneg {A} (p : A -> bool) (l : list A) : (0 <= Pd.count p l)%Z.
Proof. unfold Pd.count. apply len_nonneg. Qed.

Lemma count_cons {A} (p : A -> bool) (v : A) (l : list A) :
  Pd.count p (v :: l) = ((if p v then 1 else 0) + Pd.count p l)%Z.
Proof. unfold Pd.count, len. cbn. destruct (p v); cbn [length]; lia. Qed.

Lemma count_le_len {A} (p : A -> bool) (l : list A) :
  (Pd.count p l <= len l)%Z.
Proof.
  unfold Pd.count, len. pose proof (filter_length_le p l). lia.
Qed.

(** Two tests that exclude each other and both imply a third. *)
Lemma count_disjoint {A} (p q r : A -> bool) (l : list A) :
  (forall v, In v l -> p v = true -> q v = false) ->
  (forall v, In v l -> p v = true \/ q v = true -> r v = true) ->
  (Pd.count p l + Pd.count q l <= Pd.count r l)%Z.
Proof.
  induction l as [| v l IH]; intros Hpq Hr; [cbn; lia |].
  rewrite !count_cons.
  assert (IH' : (Pd.count p l + Pd.count q l <= Pd.count r l)%Z).
  { apply IH; intros w Hw; [apply Hpq | apply Hr]; now right. }
  specialize (Hpq v (or_introl eq_refl)).
  specialize (Hr v (or_introl eq_refl)).
  destruct (p v) eqn:Hp, (q v) eqn:Hq, (r v) eqn:Hrv; try lia;
    try (specialize (Hpq eq_refl); discriminate);
    try (assert (false = true) by (apply Hr; auto); discriminate).
Qed.

Lemma count_member {A} (p : A -> bool) (v : A) (l : list A) :
  In v l -> p v = true -> (1 <= Pd.count p l)%Z.
Proof.
  intros Hin Hp. induction l as [| w l IH]; [destruct Hin |].
  rewrite count_cons. pose proof (count_nonneg p l).
  destruct Hin as [-> | Hin]; [rewrite Hp; lia |].
  specialize (IH Hin). destruct (p w); lia.
Qed.

Lemma count_split {A} (p : A -> bool) (l : list A) :
  (Pd.count p l + Pd.count (fun w => negb (p w)) l = len l)%Z.
Proof.
  induction l as [| v l IH]; [reflexivity |].
  rewrite !count_cons.
  assert (Hlen : len (v :: l) = (1 + len l)%Z)
    by (unfold len; cbn [length]; lia).
  destruct (p v); cbn [negb]; lia.
Qed.

(** The doubled rank of a present cell lies between 2 and twice the number
    of present cells; the doubled rank of a missing cell is above that and
    at most twice the length. *)
Lemma doubled_rank_bounds (ascending : bool) (col : list (option float))
    (v : option float) :
  In v col ->
  let present := Pd.count (fun w => negb (Pd.isna w)) col in
  (if Pd.isna v
   then (2 * present < doubled_rank ascending col v <= 2 * len col + 1)%Z
   else (2 <= doubled_rank ascending col v <= 2 * present)%Z).
Proof.
  intros Hin present. unfold doubled_rank.
  pose proof (count_split Pd.isna col) as Hsplit. fold present in Hsplit.
  pose proof (count_nonneg Pd.isna col).
  destruct (Pd.isna v) eqn:Hna.
  - pose proof (count_member Pd.isna v col Hin Hna). lia.
  - pose proof (count_member (Pd.tied v) v col Hin (tied_self v Hna)).
    pose proof (count_nonneg (Pd.before ascending v) col).
    assert (Hsum : (Pd.count (Pd.before ascending v) col
                    + Pd.count (Pd.tied v) col <= present)%Z).
    { apply count_disjoint.
      - intros w _. apply before_not_tied.
      - intros w _ [Hb | Ht]; apply negb_true_iff;
          [eapply before_present, Hb | eapply tied_present, Ht]. }
    lia.
Qed.

(** A cell ranked before another has the smaller doubled rank. *)
Lemma doubled_rank_monotone (ascending : bool) (col : list (option float))
    (v w : option float) :
  In v col -> In w col -> Pd.before ascending v w = true ->
  (doubled_rank ascending col w < doubled_rank ascending col v)%Z.
Proof.
  intros Hv Hw Hb.
  assert (Hnv : Pd.isna v = false).
  { apply before_key in Hb. now destruct Hb as (a & b & -> & -> & Ha & _). }
  unfold doubled_rank. rewrite Hnv, (before_present _ _ _ Hb).
  pose proof (count_member (Pd.tied w) w col Hw
                (tied_self w (before_present _ _ _ Hb))).
  pose proof (count_member (Pd.tied v) v col Hv (tied_self v Hnv)).
  assert (Hsum : (Pd.count (Pd.before ascending w) col
                  + Pd.count (Pd.tied w) col
                  <= Pd.count (Pd.before ascending v) col)%Z).
  { apply count_disjoint.
    - intros u _. apply before_not_tied.
    - intros u _ Hu. eapply before_trans; eassumption. }
  lia.
Qed.

(** When [add_ranks] returns, every doubled rank is even. *)
Lemma add_ranks_even (records : list RiskRecord) (rows : list SummaryRow) :
  add_ranks records = Ok rows ->
  Forall (fun t => Z.even t = true)
         (Pd.rank true (map (fun r => Some (Average_Return r)) records)) /\
  Forall (fun t => Z.even t = true) (Pd.rank false (map VaR records)) /\
  Forall (fun t => Z.even t = true) (Pd.rank false (map ES records)).
Proof.
  unfold add_ranks.
  destruct (Pd.astype_Int64 (Pd.rank true _)) as [a |] eqn:Ha; cbn;
    [| discriminate].
  destruct (Pd.astype_Int64 (Pd.rank false (map VaR records))) as [v |] eqn:Hv;
    cbn; [| discriminate].
  destruct (Pd.astype_Int64 (Pd.rank false (map ES records))) as [e |] eqn:He;
    cbn; [| discriminate].
  intros _. apply astype_Int64_returns in Ha, Hv, He. tauto.
Qed.

(** The rank of a row in a column of the table, against the doubled rank
    of its cell. *)
Lemma column_rank (records : list RiskRecord) (rows : list SummaryRow)
    (proj : SummaryRow -> option Z) (ascending : bool)
    (col : RiskRecord -> option float) :
  map record rows = records ->
  map proj rows
  = map (fun t => Some (t / 2)%Z) (Pd.rank ascending (map col records)) ->
  Forall (fun t => Z.even t = true) (Pd.rank ascending (map col records)) ->
  forall i row, nth_error rows i = Some row ->
  In (col (record row)) (map col records) /\
  exists r, proj row = Some r /\
            (2 * r)%Z = doubled_rank ascending (map col records) (col (record row)).
Proof.
  intros Hrec Hproj Heven i row Hrow.
  assert (Hr : nth_error records i = Some (record row)).
  { rewrite <- Hrec, nth_error_map, Hrow. reflexivity. }
  assert (Hc : nth_error (map col records) i = Some (col (record row))).
  { rewrite nth_error_map, Hr. reflexivity. }
  split; [eapply nth_error_In, Hc |].
  assert (Hp : nth_error (map proj rows) i = Some (proj row))
    by (rewrite nth_error_map, Hrow; reflexivity).
  rewrite Hproj, nth_error_map in Hp.
  pose proof (rank_at ascending _ i _ Hc) as Hrank.
  fold (doubled_rank ascending (map col records) (col (record row)))
    in Hrank.
  rewrite Hrank in Hp. cbv [option_map] in Hp.
  injection Hp as Hp. eexists. split; [symmetry; exact Hp |].
  rewrite Forall_forall in Heven.
  specialize (Heven _ (nth_error_In _ _ Hrank)).
  apply Z.even_spec in Heven. destruct Heven as [h Hh].
  rewrite Hh. rewrite (Z.mul_comm 2 h), Z.div_mul by lia. lia.
Qed.

End RankOrderFacts.

(** ** Further properties of the estimators *)

Section Estimators.

Import GenerateData Stages Samples ArrayFacts PipelineFacts.
Open Scope float_scope.



(** X2: on order statistics inside the series, [0 < k < len(data)], the
    raw Hill curve is, entry by entry, what [estimate_hill_shape] returns
    at that [k]: the shape re-estimated at the selected [k] is the value of
    the unsmoothed curve there. *)
Theorem raw_curve_is_estimate_hill_shape `{NumericLib}
    (data : list float) (k_vals : list Z) :
  (forall k, In k k_vals -> (0 < k < len data)%Z) ->
  SmoothedHill.hill_estimator data k_vals
  = comprehension (estimate_hill_shape data) k_vals.
Proof.
  intros Hk. unfold SmoothedHill.hill_estimator.
  induction k_vals as [| k k_vals IH]; [reflexivity |].
  cbn [comprehension]. rewrite IH by (intros; apply Hk; now right).
  f_equal. unfold estimate_hill_shape.
  specialize (Hk k (or_introl eq_refl)). rewrite len_sorted_desc.
  destruct (k <? len data)%Z eqn:H1; [| apply Z.ltb_ge in H1; lia].
  destruct (len data <=? k)%Z eqn:H2; [apply Z.leb_le in H2; lia |].
  destruct (k <=? 0)%Z eqn:H3; [apply Z.leb_le in H3; lia |].
  reflexivity.
Qed.

Lemma raw_curve_of_ten_losses :
  SmoothedHill.hill_estimator (H := Soft.lib) ten_losses [3; 5]%Z
  = comprehension (estimate_hill_shape (H := Soft.lib) ten_losses) [3; 5]%Z.
Proof.
  apply (@raw_curve_is_estimate_hill_shape Soft.lib ten_losses [3; 5]%Z).
  intros k [<- | [<- | []]]; vm_compute; split; reflexivity.
Defined.



(** X4: [select_k] raises [ValueError] on a curve of fewer than two points
    (the reason for the guard [len(k_vals) < 2]); whatever it returns is
    one of the candidates; and with a length-preserving filter it returns
    on every curve of two points or more that has one value per
    candidate. *)
Theorem select_k_cases `{NumericLib}
    (smoothed : list float) (k_vals : list Z) :
  ((length smoothed < 2)%nat ->
     select_k smoothed k_vals = Raise ValueError) /\
  (forall k, select_k smoothed k_vals = Ok k -> In k k_vals) /\
  (filter_keeps_length ->
   (2 <= length smoothed)%nat -> length smoothed = length k_vals ->
     exists k, select_k smoothed k_vals = Ok k).
Proof.
  repeat split.
  - intros Hlen. unfold select_k.
    destruct smoothed as [| a [| b t]]; cbn in *; try reflexivity. lia.
  - intros k. unfold select_k.
    destruct (Np.gradient smoothed); cbn; [| discriminate].
    destruct (Np.argmin _); cbn; [| discriminate].
    apply getitem_In.
  - intros Hfilter H2 Hlen.
    destruct (select_k_returns Hfilter smoothed k_vals H2 Hlen)
      as (k & Hk & _).
    now exists k.
Qed.

Lemma select_k_on_one_point :
  select_k (H := Soft.lib) [1] [5%Z] = Raise ValueError.
Proof.
  apply (@select_k_cases Soft.lib [1] [5%Z]). cbn. lia.
Defined.

End Estimators.

(** ** Further properties of the batch *)

Section Batches.

Import GenerateData Stages Samples ArrayFacts PipelineFacts RankFacts.
Import RankOrderFacts SortFacts.
Open Scope float_scope.



End Batches.

(** ** Further properties of the ranks *)

Section Ranks.

Import GenerateData Samples ArrayFacts RankFacts RankOrderFacts.
Open Scope float_scope.

Lemma doubled_rank_even (ascending : bool) (col : list (option float))
    (v : option float) :
  Z.even (doubled_rank ascending col v)
  = Z.odd (if Pd.isna v then Pd.count Pd.isna col
           else Pd.count (Pd.tied v) col).
Proof.
  unfold doubled_rank.
  destruct (Pd.isna v);
    rewrite Z.add_1_r, Z.even_succ, Z.add_comm, Z.odd_add_mul_2;
    reflexivity.
Qed.

Lemma rank_is_doubled (ascending : bool) (col : list (option float)) :
  Pd.rank ascending col = map (doubled_rank ascending col) col.
Proof. reflexivity. Qed.

Lemma astype_Int64_even (twice : list Z) :
  Forall (fun t => Z.even t = true) twice <->
  exists ranks, Pd.astype_Int64 twice = Ok ranks.
Proof.
  split.
  - intros Hall. apply comprehension_returns. intros t Ht.
    rewrite Forall_forall in Hall. rewrite (Hall t Ht). now eexists.
  - intros [ranks Hr]. now apply astype_Int64_returns in Hr.
Qed.

(** X7: [add_ranks] returns exactly when, in each of the three columns,
    every group of tied values and the group of the missing cells have an
    odd number of members (so that their shared mean rank is whole);
    otherwise it raises, and what it raises is [TypeError]. *)
Theorem ranking_returns_iff_groups_are_odd (records : list RiskRecord) :
  let group (col : list (option float)) (v : option float) :=
    if Pd.isna v then Pd.count Pd.isna col else Pd.count (Pd.tied v) col in
  let odd_groups (col : list (option float)) :=
    forall v, In v col -> Z.odd (group col v) = true in
  ((exists rows, add_ranks records = Ok rows) <->
     odd_groups (map (fun r => Some (Average_Return r)) records) /\
     odd_groups (map VaR records) /\
     odd_groups (map ES records)) /\
  (forall e, add_ranks records = Raise e -> e = TypeError).
Proof.
  intros group odd_groups.
  assert (Hcol : forall asc col,
             odd_groups col <->
             exists ranks, Pd.astype_Int64 (Pd.rank asc col) = Ok ranks).
  { intros asc col. rewrite <- astype_Int64_even, rank_is_doubled.
    rewrite Forall_map, Forall_forall. unfold odd_groups, group.
    split; intros Hall v Hv; specialize (Hall v Hv);
      [now rewrite doubled_rank_even
      | now rewrite <- (doubled_rank_even asc)]. }
  split.
  - rewrite (Hcol true), (Hcol false (map VaR records)),
      (Hcol false (map ES records)).
    unfold add_ranks. split.
    + intros [rows Hrows]. revert Hrows.
      destruct (Pd.astype_Int64 (Pd.rank true _)) as [a |]; cbn;
        [| discriminate].
      destruct (Pd.astype_Int64 (Pd.rank false (map VaR records))) as [v |];
        cbn; [| discriminate].
      destruct (Pd.astype_Int64 (Pd.rank false (map ES records))) as [e |];
        cbn; [| discriminate].
      intros _. repeat split; now eexists.
    + intros ([a ->] & [v ->] & [e ->]). cbn. now eexists.
  - intros e. unfold add_ranks.
    destruct (Pd.astype_Int64 (Pd.rank true _)) as [a |] eqn:Ha; cbn;
      [| intros [= <-]; eapply astype_Int64_raises_TypeError, Ha].
    destruct (Pd.astype_Int64 (Pd.rank false (map VaR records))) as [v |]
      eqn:Hv; cbn;
      [| intros [= <-]; eapply astype_Int64_raises_TypeError, Hv].
    destruct (Pd.astype_Int64 (Pd.rank false (map ES records))) as [es |]
      eqn:He; cbn;
      [discriminate | intros [= <-]; eapply astype_Int64_raises_TypeError, He].
Qed.

Lemma ranking_of_three_records_returns :
  exists rows, add_ranks ranking_example = Ok rows.
Proof.
  apply (proj1 (ranking_returns_iff_groups_are_odd ranking_example)).
  repeat split; intros v [<- | [<- | [<- | []]]]; vm_compute; reflexivity.
Defined.

(** X8: when [add_ranks] returns, it returns one row per record, in
    order; no rank is [<NA>]; every rank lies between 1 and the number of
    records; and in the VaR and ES columns a missing value is ranked
    strictly after every value that is present. *)
Theorem ranks_in_range_and_missing_last
    (records : list RiskRecord) (rows : list SummaryRow) :
  add_ranks records = Ok rows ->
  map record rows = records /\
  (forall row, In row rows ->
     exists a v e,
       Average_Return_Rank row = Some a /\ VaR_Rank row = Some v /\
       ES_Rank row = Some e /\
       (1 <= a <= len records)%Z /\ (1 <= v <= len records)%Z /\
       (1 <= e <= len records)%Z) /\
  (forall row row' v v',
     In row rows -> In row' rows ->
     VaR_Rank row = Some v -> VaR_Rank row' = Some v' ->
     Pd.isna (VaR (record row)) = false ->
     Pd.isna (VaR (record row')) = true -> (v < v')%Z) /\
  (forall row row' e e',
     In row rows -> In row' rows ->
     ES_Rank row = Some e -> ES_Rank row' = Some e' ->
     Pd.isna (ES (record row)) = false ->
     Pd.isna (ES (record row')) = true -> (e < e')%Z).
Proof.
  intros Hranks.
  destruct (add_ranks_columns records rows Hranks)
    as (Hrec & Havg & Hvar & Hes).
  destruct (add_ranks_even records rows Hranks) as (Eavg & Evar & Ees).
  assert (Hbound : forall (proj : SummaryRow -> option Z) asc
                          (col : RiskRecord -> option float),
             map proj rows
             = map (fun t => Some (t / 2)%Z)
                   (Pd.rank asc (map col records)) ->
             Forall (fun t => Z.even t = true)
                    (Pd.rank asc (map col records)) ->
             forall row, In row rows ->
             exists r, proj row = Some r /\
               (1 <= r <= len records)%Z /\
               (if Pd.isna (col (record row))
                then (Pd.count (fun w => negb (Pd.isna w)) (map col records)
                      < r)%Z
                else (r <= Pd.count (fun w => negb (Pd.isna w))
                                    (map col records))%Z)).
  { intros proj asc col Hproj Heven row Hin.
    apply In_nth_error in Hin. destruct Hin as [i Hrow].
    destruct (column_rank records rows proj asc col Hrec Hproj Heven i row Hrow)
      as (Hcell & r & Hr & Hdouble).
    exists r. split; [exact Hr |].
    pose proof (doubled_rank_bounds asc _ _ Hcell) as Hb. cbv zeta in Hb.
    pose proof (count_le_len (fun w => negb (Pd.isna w)) (map col records))
      as Hp.
    pose proof (count_nonneg (fun w => negb (Pd.isna w)) (map col records)).
    rewrite len_map in Hb, Hp.
    destruct (Pd.isna (col (record row))); split; lia. }
  split; [exact Hrec |]. split; [| split].
  - intros row Hin.
    destruct (Hbound _ _ _ Havg Eavg row Hin) as (a & Ha & Hra & _).
    destruct (Hbound _ _ _ Hvar Evar row Hin) as (v & Hv & Hrv & _).
    destruct (Hbound _ _ _ Hes Ees row Hin) as (e & He & Hre & _).
    exists a, v, e. now repeat split.
  - intros row row' v v' Hin Hin' Hv Hv' Hna Hna'.
    destruct (Hbound _ _ _ Hvar Evar row Hin) as (r & Hr & _ & Hp).
    destruct (Hbound _ _ _ Hvar Evar row' Hin') as (r' & Hr' & _ & Hp').
    rewrite Hna in Hp. rewrite Hna' in Hp'.
    assert (r = v) by congruence. assert (r' = v') by congruence. lia.
  - intros row row' e e' Hin Hin' He He' Hna Hna'.
    destruct (Hbound _ _ _ Hes Ees row Hin) as (r & Hr & _ & Hp).
    destruct (Hbound _ _ _ Hes Ees row' Hin') as (r' & Hr' & _ & Hp').
    rewrite Hna in Hp. rewrite Hna' in Hp'.
    assert (r = e) by congruence. assert (r' = e') by congruence. lia.
Qed.

Lemma ranks_of_three_records_in_range :
  exists rows,
    add_ranks ranking_example = Ok rows /\
    map record rows = ranking_example.
Proof.
  assert (Hrows : { rows | add_ranks ranking_example = Ok rows })
    by (eexists; vm_compute; reflexivity).
  destruct Hrows as [rows Hrows]. exists rows. split; [exact Hrows |].
  exact (proj1 (ranks_in_range_and_missing_last ranking_example rows Hrows)).
Defined.

(** X9: when [add_ranks] returns, the ranks follow the values: a strictly
    smaller average return has a strictly smaller Average_Return_Rank, and
    a strictly larger VaR (ES) has a strictly smaller VaR_Rank
    (ES_Rank). *)
Theorem ranks_follow_the_values
    (records : list RiskRecord) (rows : list SummaryRow) :
  add_ranks records = Ok rows ->
  forall row row', In row rows -> In row' rows ->
  (forall a a',
     Average_Return_Rank row = Some a ->
     Average_Return_Rank row' = Some a' ->
     (Average_Return (record row) <? Average_Return (record row')) = true ->
     (a < a')%Z) /\
  (forall x x' v v',
     VaR (record row) = Some x -> VaR (record row') = Some x' ->
     VaR_Rank row = Some v -> VaR_Rank row' = Some v' ->
     (x' <? x) = true -> (v < v')%Z) /\
  (forall x x' e e',
     ES (record row) = Some x -> ES (record row') = Some x' ->
     ES_Rank row = Some e -> ES_Rank row' = Some e' ->
     (x' <? x) = true -> (e < e')%Z).
Proof.
  intros Hranks row row' Hin Hin'.
  destruct (add_ranks_columns records rows Hranks)
    as (Hrec & Havg & Hvar & Hes).
  destruct (add_ranks_even records rows Hranks) as (Eavg & Evar & Ees).
  apply In_nth_error in Hin, Hin'.
  destruct Hin as [i Hrow], Hin' as [j Hrow'].
  assert (Hmono : forall (proj : SummaryRow -> option Z) asc
                         (col : RiskRecord -> option float) r r',
             map proj rows
             = map (fun t => Some (t / 2)%Z)
                   (Pd.rank asc (map col records)) ->
             Forall (fun t => Z.even t = true)
                    (Pd.rank asc (map col records)) ->
             proj row = Some r -> proj row' = Some r' ->
             Pd.before asc (col (record row')) (col (record row)) = true ->
             (r < r')%Z).
  { intros proj asc col r r' Hproj Heven Hr Hr' Hb.
    destruct (column_rank records rows proj asc col Hrec Hproj Heven i row Hrow)
      as (Hcell & q & Hq & Hdouble).
    destruct (column_rank records rows proj asc col Hrec Hproj Heven
                j row' Hrow')
      as (Hcell' & q' & Hq' & Hdouble').
    pose proof (doubled_rank_monotone asc _ _ _ Hcell' Hcell Hb).
    assert (q = r) by congruence. assert (q' = r') by congruence. lia. }
  assert (Hbefore : forall (asc : bool) (x x' : float),
             (if asc then x <? x' else x' <? x) = true ->
             Pd.before asc (Some x') (Some x) = true).
  { intros asc x x' Hlt. cbn.
    assert (Hnan : is_nan x = false /\ is_nan x' = false).
    { destruct asc; apply OrderFacts.ltb_not_nan in Hlt; tauto. }
    destruct Hnan as [-> ->]. cbn. exact Hlt. }
  repeat split.
  - intros a a' Ha Ha' Hlt.
    apply (Hmono Average_Return_Rank true
                 (fun r => Some (Average_Return r)) a a' Havg Eavg Ha Ha').
    now apply (Hbefore true).
  - intros x x' v v' Hx Hx' Hv Hv' Hlt.
    apply (Hmono VaR_Rank false VaR v v' Hvar Evar Hv Hv').
    rewrite Hx, Hx'. now apply (Hbefore false).
  - intros x x' e e' Hx Hx' He He' Hlt.
    apply (Hmono ES_Rank false ES e e' Hes Ees He He').
    rewrite Hx, Hx'. now apply (Hbefore false).
Qed.

Lemma ranks_of_three_records_follow_returns :
  exists row row' a a',
    nth_error MoreSamples.ranked_example 0 = Some row /\
    nth_error MoreSamples.ranked_example 1 = Some row' /\
    Average_Return_Rank row = Some a /\
    Average_Return_Rank row' = Some a' /\
    (a < a')%Z.
Proof.
  assert (Hrows : add_ranks ranking_example = Ok MoreSamples.ranked_example)
    by (vm_compute; reflexivity).
  do 2 eexists. exists 1%Z, 3%Z.
  split; [reflexivity |]. split; [reflexivity |].
  match goal with
  | |- Average_Return_Rank ?r = _ /\ Average_Return_Rank ?r' = _ /\ _ =>
      split; [reflexivity |]; split; [reflexivity |];
      refine (proj1 (ranks_follow_the_values ranking_example _ Hrows r r' _ _)
                    1%Z 3%Z eq_refl eq_refl eq_refl);
      cbn; auto
  end.
Defined.

End Ranks.

(** ** Tickers, downloads and the two scripts *)

Module BatchFacts.

Import GenerateData Batch.

Lemma dict_set_In (results : PriceData) (ticker : string) (df : DataFrame)
    (t : string) (d : DataFrame) :
  In (t, d) (dict_set results ticker df) ->
  (t = ticker /\ d = df) \/ In (t, d) results.
Proof.
  induction results as [| [t0 d0] rest IH]; cbn.
  - intros [[= <- <-] | []]. now left.
  - destruct (String.eqb t0 ticker) eqn:He.
    + apply String.eqb_eq in He. subst t0.
      intros [[= <- <-] | Hin]; [now left | right; now right].
    + intros [[= <- <-] | Hin]; [right; now left |].
      destruct (IH Hin) as [? | ?]; [now left | right; now right].
Qed.

Lemma dict_set_keys (results : PriceData) (ticker : string) (df : DataFrame) :
  map fst (dict_set results ticker df)
  = if existsb (String.eqb ticker) (map fst results)
    then map fst results
    else map fst results ++ [ticker].
Proof.
  induction results as [| [t0 d0] rest IH]; cbn; [reflexivity |].
  rewrite (String.eqb_sym ticker t0).
  destruct (String.eqb t0 ticker); cbn; [reflexivity |].
  rewrite IH. now destruct (existsb _ _).
Qed.

(** A dict has each key once. *)
Lemma dict_set_NoDup (results : PriceData) (ticker : string) (df : DataFrame) :
  NoDup (map fst results) -> NoDup (map fst (dict_set results ticker df)).
Proof.
  intros Hnd. rewrite dict_set_keys.
  destruct (existsb _ _) eqn:Hex; [exact Hnd |].
  apply NoDup_app; [exact Hnd | repeat constructor; intros [] |].
  intros t Ht [Heq | []]. subst t.
  assert (Htrue : existsb (String.eqb ticker) (map fst results) = true).
  { apply existsb_exists. exists ticker.
    split; [exact Ht | apply String.eqb_refl]. }
  congruence.
Qed.

Lemma dropna_clean (raw : DataFrame) (b : Bar) :
  In b (dropna raw) ->
  In b raw /\ is_nan (Open b) = false /\ is_nan (Close b) = false.
Proof.
  unfold dropna. intros Hb. apply filter_In in Hb. destruct Hb as [Hin Hb].
  apply andb_prop in Hb. destruct Hb as [Ho Hc].
  apply negb_true_iff in Ho, Hc. now repeat split.
Qed.

Section Download.

Variable yf_download : string -> result DataFrame.

Lemma download_one_keeps (results : PriceData) (ticker : string) :
  NoDup (map fst results) ->
  NoDup (map fst (download_one yf_download results ticker)) /\
  forall t d, In (t, d) (download_one yf_download results ticker) ->
              In (t, d) results \/ (t = ticker /\ stored yf_download t d).
Proof.
  intros Hnd. unfold download_one.
  destruct (yf_download ticker) as [raw |] eqn:Hraw; [| now split; auto].
  destruct (dropna raw) as [| b df] eqn:Hdf; [split; auto |].
  split; [now apply dict_set_NoDup |].
  intros t d Hin. apply dict_set_In in Hin.
  destruct Hin as [[-> ->] | Hin]; [right | now left].
  split; [reflexivity |]. split; [discriminate |].
  exists raw. now split.
Qed.

Lemma download_prices_from (tickers : list string) (results : PriceData) :
  NoDup (map fst results) ->
  NoDup (map fst (fold_left (download_one yf_download) tickers results)) /\
  forall t d,
    In (t, d) (fold_left (download_one yf_download) tickers results) ->
    In (t, d) results \/ (In t tickers /\ stored yf_download t d).
Proof.
  revert results. induction tickers as [| ticker tickers IH];
    intros results Hnd; cbn [fold_left]; [split; auto |].
  destruct (download_one_keeps results ticker Hnd) as [Hnd1 Hone].
  destruct (IH _ Hnd1) as [Hnd2 Hrest].
  split; [exact Hnd2 |].
  intros t d Hin. destruct (Hrest t d Hin) as [Hin1 | [Ht Hs]].
  - destruct (Hone t d Hin1) as [? | [-> Hs]]; [now left | right].
    split; [now left | exact Hs].
  - right. split; [now right | exact Hs].
Qed.

End Download.


Section Records.

Context `{NumericLib}.

(** The records of a batch, against the entries that yield one. *)
Lemma collect_records_kept (metadata : list MetaRow) (prices : PriceData) :
  let kept (p : string * DataFrame) :=
    match ticker_record metadata (fst p) (snd p) with
    | Ok (Some _) => true
    | _ => false
    end in
  map Ticker (collect_records metadata prices) = map fst (filter kept prices) /\
  map Name (collect_records metadata prices)
  = map (fun p => company_name metadata (fst p)) (filter kept prices).
Proof.
  intros kept. induction prices as [| [ticker df] prices [IHt IHn]];
    [now split |].
  cbn [collect_records filter].
  change (kept (ticker, df))
    with (match ticker_record metadata ticker df with
          | Ok (Some _) => true
          | _ => false
          end).
  destruct (ticker_record metadata ticker df) as [[r |] |] eqn:Hr;
    [| now split | now split].
  cbn [map fst]. rewrite IHt, IHn.
  revert Hr. unfold ticker_record.
  destruct (len _ <? LOSS_THRESHOLD)%Z; [discriminate |].
  destruct (len (Np.arange _ _) <? 2)%Z; [discriminate |].
  destruct (hill_estimator _ _); cbn; [| discriminate].
  destruct (select_k _ _); cbn; [| discriminate].
  destruct (getitem _ _); cbn; [| discriminate].
  destruct (compute_gpd_risks_mle _ _ _); cbn; [| discriminate].
  intros [= <-]. now split.
Qed.


(** With a length-preserving filter the entries that yield a record are
    those with 30 losses or more. *)
Lemma kept_is_enough (Hfilter : filter_keeps_length)
    (metadata : list MetaRow) (p : string * DataFrame) :
  match ticker_record metadata (fst p) (snd p) with
  | Ok (Some _) => true
  | _ => false
  end
  = (LOSS_THRESHOLD <=? len (loss_series (daily_returns (snd p))))%Z.
Proof.
  destruct p as [ticker df]. cbn [fst snd].
  destruct (PipelineFacts.ticker_record_cases Hfilter metadata ticker df)
    as [Hskip Hkeep].
  destruct (LOSS_THRESHOLD <=? len (loss_series (daily_returns df)))%Z eqn:Hn.
  - apply Z.leb_le in Hn. destruct (Hkeep Hn) as (r & -> & _). reflexivity.
  - apply Z.leb_gt in Hn. now rewrite (Hskip Hn).
Qed.

End Records.



End BatchFacts.

Section Scripts.

Import GenerateData Batch Script Samples MoreSamples ArrayFacts.
Import PipelineFacts BatchFacts RankFacts.
Open Scope float_scope.

(** X10: the suffix is applied once: a ticker that went through
    [with_suffix] is left alone by it, and is never the bare RY or TD; the
    two [read_tickers] give the same tickers for a workbook without empty
    symbol cells, one row per company in the order of the workbook, and a
    missing workbook gives generate_data.py an empty table. *)
Theorem suffix_is_applied_once :
  (forall t, with_suffix (with_suffix t) = with_suffix t) /\
  (forall t, with_suffix t <> "RY"%string /\ with_suffix t <> "TD"%string) /\
  (forall rows,
     map Company_Name (Batch.read_tickers (Sheet rows)) = map fst rows /\
     map Stock_Ticker (Batch.read_tickers (Sheet rows))
     = Script.read_tickers (map (fun row => Some (snd row)) rows)) /\
  Batch.read_tickers FileNotFound = [].
Proof.
  assert (Hcases : forall t,
             (t = "RY"%string /\ with_suffix t = "RY.TO"%string) \/
             (t = "TD"%string /\ with_suffix t = "TD.TO"%string) \/
             (t <> "RY"%string /\ t <> "TD"%string /\ with_suffix t = t)).
  { intros t. unfold with_suffix.
    destruct (String.eqb t "RY") eqn:H1.
    - apply String.eqb_eq in H1. subst t. now left.
    - destruct (String.eqb t "TD") eqn:H2.
      + apply String.eqb_eq in H2. subst t. right. now left.
      + apply String.eqb_neq in H1, H2. right. right. now repeat split. }
  split; [| split; [| split; [| reflexivity]]].
  - intros t. destruct (Hcases t) as [[-> ->] | [[-> ->] | (_ & _ & Hs)]];
      [reflexivity | reflexivity | now rewrite !Hs].
  - intros t.
    destruct (Hcases t) as [[-> ->] | [[-> ->] | (H1 & H2 & ->)]];
      split; try discriminate; assumption.
  - intros rows. split.
    + induction rows as [| [name symbol] rows IH]; [reflexivity |].
      cbn in *. now rewrite IH.
    + unfold Script.read_tickers.
      induction rows as [| [name symbol] rows IH]; [reflexivity |].
      cbn in *. now rewrite IH.
Qed.

(** X11: [download_prices] stores each ticker once, only tickers of the
    list it was given, and under each of them a frame that is not empty
    and has no NaN in Open or Close: the rows without NaN of what the
    download of that ticker returned. *)
Theorem downloads_are_clean
    (yf_download : string -> result DataFrame) (ticker_list : list string) :
  let prices := download_prices yf_download ticker_list in
  NoDup (map fst prices) /\
  forall ticker df,
    In (ticker, df) prices ->
    In ticker ticker_list /\
    stored yf_download ticker df /\
    forall b, In b df ->
      is_nan (Open b) = false /\ is_nan (Close b) = false.
Proof.
  intros prices.
  destruct (download_prices_from yf_download ticker_list [] (NoDup_nil _))
    as [Hnd Hall].
  split; [exact Hnd |].
  intros ticker df Hin. destruct (Hall ticker df Hin) as [[] | [Ht Hs]].
  split; [exact Ht |]. split; [exact Hs |].
  destruct Hs as (_ & raw & _ & ->).
  intros b Hb. now apply dropna_clean in Hb.
Qed.

Lemma downloads_of_three_requests :
  NoDup (map fst (download_prices one_download
                    ["RY.TO"; "ACME"; "RY.TO"]%string)).
Proof.
  exact (proj1 (downloads_are_clean one_download
                  ["RY.TO"; "ACME"; "RY.TO"]%string)).
Defined.



(** X6: with a length-preserving filter, the records of a batch are, in
    the order of the price table, those of the tickers with 30 losses or
    more, each under its own ticker and with the company name of the
    metadata (the ticker itself when the metadata does not list it). *)
Theorem records_are_the_tickers_with_30_losses `{NumericLib}
    (Hfilter : filter_keeps_length)
    (metadata : list MetaRow) (prices : PriceData) :
  let enough (p : string * DataFrame) :=
    (LOSS_THRESHOLD <=? len (loss_series (daily_returns (snd p))))%Z in
  map Ticker (collect_records metadata prices)
  = map fst (filter enough prices) /\
  map Name (collect_records metadata prices)
  = map (fun p => company_name metadata (fst p)) (filter enough prices).
Proof.
  intros enough.
  destruct (collect_records_kept metadata prices) as [Ht Hn].
  rewrite Ht, Hn.
  rewrite (filter_ext _ enough (kept_is_enough Hfilter metadata)).
  now split.
Qed.

Lemma records_of_two_steady_tickers :
  map Ticker
      (collect_records (H := Soft.lib) []
         [("A"%string, steady 30 99); ("B"%string, steady 29 98)])
  = ["A"%string].
Proof.
  exact (proj1 (@records_are_the_tickers_with_30_losses
                  Soft.lib SoftFacts.gaussian_keeps_length []
                  [("A"%string, steady 30 99); ("B"%string, steady 29 98)])).
Defined.

(** X15: with a length-preserving filter and a workbook that has rows, the
    main block finishes without writing the summary file exactly when no
    downloaded ticker has 30 losses or more; so it does when every
    download fails. *)
Theorem main_writes_nothing_without_records `{NumericLib}
    (Hfilter : filter_keeps_length)
    (yf_download : string -> result DataFrame) (book : workbook) :
  Batch.read_tickers book <> [] ->
  let prices :=
    download_prices yf_download (map Stock_Ticker (Batch.read_tickers book)) in
  (main yf_download book = Finished None <->
     forall ticker df, In (ticker, df) prices ->
       (len (loss_series (daily_returns df)) < LOSS_THRESHOLD)%Z) /\
  ((forall ticker, exists e, yf_download ticker = Raise e) ->
     main yf_download book = Finished None).
Proof.
  intros Hrows prices. subst prices. unfold main.
  set (metadata := Batch.read_tickers book) in *.
  destruct metadata as [| m0 ms] eqn:Hmd; [congruence |].
  rewrite <- Hmd. clear Hmd m0 ms Hrows.
  set (prices := download_prices yf_download (map Stock_Ticker metadata)).
  unfold compute_risks.
  destruct (collect_records_kept metadata prices) as [Ht _].
  rewrite (filter_ext _ _ (kept_is_enough Hfilter metadata)) in Ht.
  assert (Hiff : collect_records metadata prices = [] <->
                 forall ticker df, In (ticker, df) prices ->
                   (len (loss_series (daily_returns df)) < LOSS_THRESHOLD)%Z).
  { split.
    - intros Hnil ticker df Hin. rewrite Hnil in Ht. cbn in Ht.
      destruct (Z.lt_ge_cases (len (loss_series (daily_returns df)))
                              LOSS_THRESHOLD) as [? | Hge]; [assumption |].
      exfalso. symmetry in Ht. apply map_eq_nil in Ht.
      assert (Hf : In (ticker, df)
                      (filter (fun p => (LOSS_THRESHOLD <=?
                         len (loss_series (daily_returns (snd p))))%Z) prices)).
      { apply filter_In. split; [exact Hin |]. now apply Z.leb_le. }
      rewrite Ht in Hf. destruct Hf.
    - intros Hall.
      destruct (collect_records metadata prices) as [| r rs] eqn:Hc;
        [reflexivity |].
      exfalso. cbn in Ht.
      destruct (filter _ prices) as [| [t d] rest] eqn:Hf; [discriminate |].
      assert (Hin : In (t, d)
                       (filter (fun p => (LOSS_THRESHOLD <=?
                          len (loss_series (daily_returns (snd p))))%Z) prices))
        by (rewrite Hf; now left).
      apply filter_In in Hin. destruct Hin as [Hin Hge].
      apply Z.leb_le in Hge. cbn [snd] in Hge. specialize (Hall t d Hin). lia. }
  assert (Hnone : match add_ranks (collect_records metadata prices) with
                  | Ok summary_df => Finished (save_summary summary_df)
                  | Raise e => Raised e
                  end = Finished None <->
                  collect_records metadata prices = []).
  { split.
    - destruct (add_ranks (collect_records metadata prices)) as [rows |] eqn:Hr;
        [| discriminate].
      apply add_ranks_columns in Hr. destruct Hr as (Hrec & _).
      destruct rows as [| row rows]; [now intros _ | discriminate].
    - intros ->. reflexivity. }
  split; [now rewrite Hnone |].
  intros Hfail. apply Hnone, Hiff.
  intros ticker df Hin. exfalso.
  destruct (download_prices_from yf_download (map Stock_Ticker metadata)
              [] (NoDup_nil _)) as [_ Hall].
  destruct (Hall ticker df Hin) as [[] | (_ & _ & raw & Hraw & _)].
  destruct (Hfail ticker) as [e He]. congruence.
Qed.

Lemma main_without_downloads :
  main (H := Soft.lib) (fun _ => Raise LibraryError) two_companies
  = Finished None.
Proof.
  apply (@main_writes_nothing_without_records
           Soft.lib SoftFacts.gaussian_keeps_length
           (fun _ => Raise LibraryError) two_companies).
  - discriminate.
  - intros ticker. now exists LibraryError.
Defined.

(** X16: a negative candidate [k] is read by Python from the end: for
    [-len(data) <= k < 0] the raw Hill curve has at [k] the entry it has
    at [len(data) + k], and for [k < -len(data)] the function raises
    [IndexError]. *)
Theorem raw_hill_curve_on_negative_candidates `{NumericLib}
    (data : list float) (k : Z) :
  ((- len data <= k < 0)%Z ->
     SmoothedHill.hill_estimator data [k]
     = SmoothedHill.hill_estimator data [(len data + k)%Z]) /\
  ((k < - len data)%Z ->
     SmoothedHill.hill_estimator data [k] = Raise IndexError).
Proof.
  unfold SmoothedHill.hill_estimator. cbn [comprehension].
  set (sorted := Np.flip (Np.sort data)).
  assert (Hlen : len sorted = len data) by apply len_sorted_desc.
  pose proof (len_nonneg data) as Hnn. rewrite Hlen. split; intros Hk.
  - destruct (k <? len data)%Z eqn:H1; [| apply Z.ltb_ge in H1; lia].
    destruct (len data + k <? len data)%Z eqn:H2;
      [| apply Z.ltb_ge in H2; lia].
    unfold prefix, getitem. rewrite Hlen.
    destruct (k <? 0)%Z eqn:H3; [| apply Z.ltb_ge in H3; lia].
    destruct (len data + k <? 0)%Z eqn:H4; [apply Z.ltb_lt in H4; lia |].
    rewrite (Z.add_comm k (len data)), H4. reflexivity.
  - destruct (k <? len data)%Z eqn:H1; [| apply Z.ltb_ge in H1; lia].
    unfold getitem. rewrite Hlen.
    destruct (k <? 0)%Z eqn:H3; [| apply Z.ltb_ge in H3; lia].
    destruct (k + len data <? 0)%Z eqn:H4; [| apply Z.ltb_ge in H4; lia].
    reflexivity.
Qed.

Lemma raw_hill_curve_at_minus_two :
  SmoothedHill.hill_estimator (H := Soft.lib) ten_losses [(-2)%Z]
  = SmoothedHill.hill_estimator (H := Soft.lib) ten_losses [8%Z].
Proof.
  apply (@raw_hill_curve_on_negative_candidates Soft.lib ten_losses (-2)).
  vm_compute. split; [discriminate | reflexivity].
Defined.

(** X13: in the loop [for delta in [-10, 0, 10]] of the script, with the
    selected [5 <= k < len(data) - 10], the guard [test_k < len(data)]
    holds on each turn and no turn raises; the turns fit on the elements at
    the zero-based positions [k - 10], [k] and [k + 10] of the descending
    order when [k >= 10], but for [k < 10] the index [k - 10] is negative
    and the first turn fits on the [(10 - k)]-th smallest value. *)
Theorem sensitivity_loop_thresholds (data : list float) (k : Z) :
  (5 <= k < len data - 10)%Z ->
  let sorted_desc := Np.flip (Np.sort data) in
  exists t1 t2 t3,
    sensitivity_thresholds data k = Ok [Some t1; Some t2; Some t3] /\
    nth_error sorted_desc (Z.to_nat k) = Some t2 /\
    nth_error sorted_desc (Z.to_nat (k + 10)) = Some t3 /\
    ((10 <= k)%Z -> nth_error sorted_desc (Z.to_nat (k - 10)) = Some t1) /\
    ((k < 10)%Z -> nth_error (Np.sort data) (Z.to_nat (9 - k)) = Some t1).
Proof.
  intros Hk sorted_desc.
  assert (Hlen : len sorted_desc = len data) by apply len_sorted_desc.
  destruct (getitem_inside sorted_desc k) as (t2 & Hg2 & Hn2); [lia |].
  destruct (getitem_inside sorted_desc (k + 10)) as (t3 & Hg3 & Hn3); [lia |].
  assert (H1 : exists t1,
             getitem sorted_desc (k + -10) = Ok t1 /\
             ((10 <= k)%Z ->
                nth_error sorted_desc (Z.to_nat (k - 10)) = Some t1) /\
             ((k < 10)%Z ->
                nth_error (Np.sort data) (Z.to_nat (9 - k)) = Some t1)).
  { destruct (Z.lt_ge_cases k 10) as [Hlt | Hge].
    - unfold getitem.
      destruct (k + -10 <? 0)%Z eqn:Hneg; [| apply Z.ltb_ge in Hneg; lia].
      destruct (k + -10 + len sorted_desc <? 0)%Z eqn:Hneg';
        [apply Z.ltb_lt in Hneg'; lia |].
      destruct (nth_error sorted_desc
                  (Z.to_nat (k + -10 + len sorted_desc)))
        as [t1 |] eqn:Hnth.
      + exists t1. split; [reflexivity |]. split; [lia |].
        intros _. unfold sorted_desc, Np.flip in Hnth.
        rewrite nth_error_rev in Hnth.
        destruct (Nat.ltb _ _) eqn:Hb; [| discriminate].
        rewrite <- Hnth. f_equal.
        unfold len, sorted_desc, Np.flip in *. rewrite length_rev in *. lia.
      + apply nth_error_None in Hnth. unfold len in *. lia.
    - destruct (getitem_inside sorted_desc (k + -10)) as (t1 & Hg1 & Hn1);
        [lia |].
      exists t1. split; [exact Hg1 |]. split; [| lia].
      intros _. now replace (k - 10)%Z with (k + -10)%Z by lia. }
  destruct H1 as (t1 & Hg1 & Hhigh & Hlow).
  exists t1, t2, t3. split; [| now repeat split].
  unfold sensitivity_thresholds, probes, probe. fold sorted_desc.
  replace (k + 0)%Z with k by lia.
  destruct (k + -10 <? len data)%Z eqn:Ha; [| apply Z.ltb_ge in Ha; lia].
  destruct (k <? len data)%Z eqn:Hb; [| apply Z.ltb_ge in Hb; lia].
  destruct (k + 10 <? len data)%Z eqn:Hc; [| apply Z.ltb_ge in Hc; lia].
  rewrite Hg1, Hg2, Hg3. reflexivity.
Qed.

Lemma sensitivity_loop_on_twenty_losses :
  exists t1 t2 t3,
    sensitivity_thresholds twenty_losses 6 = Ok [Some t1; Some t2; Some t3] /\
    nth_error (Np.sort twenty_losses) 3 = Some t1.
Proof.
  destruct (sensitivity_loop_thresholds twenty_losses 6)
    as (t1 & t2 & t3 & Hs & _ & _ & _ & Hlow);
    [vm_compute; split; [discriminate | reflexivity] |].
  exists t1, t2, t3. split; [exact Hs |]. apply Hlow. reflexivity.
Defined.

(** X14: with a length-preserving filter, the threshold selection of the
    script returns exactly on series of 17 values or more, with one of the
    values as threshold; on 16 values or fewer, where fewer than two
    candidates exist and the script has no guard, it ends in the
    [ValueError] of [np.gradient]. *)
Theorem script_threshold_needs_17_values `{NumericLib}
    (Hfilter : filter_keeps_length) (data : list float) :
  ((len data <= 16)%Z ->
     SmoothedHill.main_threshold data = Raise ValueError) /\
  ((17 <= len data)%Z ->
     exists threshold,
       SmoothedHill.main_threshold data = Ok threshold /\ In threshold data).
Proof.
  unfold SmoothedHill.main_threshold, SmoothedHill.smoothed_hill_estimator.
  set (k_values := Np.arange 5 (Z.min (len data - 10) 200)).
  assert (Hpos : forall k, In k k_values -> (5 <= k < len data - 10)%Z)
    by (intros k Hin; apply In_arange in Hin; lia).
  destruct (raw_hill_returns data k_values) as (raw & -> & Hraw);
    [intros k Hin; apply Hpos in Hin; lia |].
  cbn [bind].
  set (smoothed := gaussian_filter1d raw 3).
  assert (Hsm : length smoothed = length k_values)
    by (unfold smoothed; now rewrite Hfilter).
  assert (Hkv : len k_values = Z.max 0 (Z.min (len data - 10) 200 - 5))
    by apply len_arange.
  split; intros Hn.
  - unfold SmoothedHill.select_optimal_k.
    assert (Hshort : (length smoothed < 2)%nat)
      by (unfold len in *; lia).
    destruct smoothed as [| a [| b t]]; cbn in *; try reflexivity. lia.
  - assert (H2 : (2 <= length smoothed)%nat) by (unfold len in *; lia).
    destruct (select_k_returns Hfilter smoothed k_values H2 Hsm)
      as (k & Hsel & Hin).
    change (GenerateData.select_k smoothed k_values)
      with (SmoothedHill.select_optimal_k smoothed k_values 5) in Hsel.
    rewrite Hsel. cbn [bind]. apply Hpos in Hin.
    destruct (getitem_inside (Np.flip (Np.sort data)) k) as (t & Hget & _);
      [rewrite len_sorted_desc; lia |].
    exists t. split; [exact Hget |].
    eapply In_sorted_desc, getitem_In, Hget.
Qed.

Lemma script_threshold_on_ten_losses :
  SmoothedHill.main_threshold (H := Soft.lib) ten_losses = Raise ValueError.
Proof.
  apply (@script_threshold_needs_17_values
           Soft.lib SoftFacts.gaussian_keeps_length ten_losses).
  vm_compute. discriminate.
Defined.

End Scripts.
